(** * EclipseGridInspector: geometric queries on a corner-point grid

    A shallow embedding of [common/EclipseGridInspector.cpp] (namespace Dune)
    and the properties of its queries.

    - C++ [int] is a 32-bit two's-complement integer carried by [Z]; every
      arithmetic result is reduced by [Int.wrap].
    - C++ [double] is IEEE-754 binary64, carried by the primitive [float].
    - [std::vector] is a [list]; [operator[]] is unchecked in C++, so a read
      outside the vector is the outcome [undefined_behaviour].
    - exceptions and the sequence of array fetches from the parser are carried
      by the monad [M]. *)

From Stdlib Require Import ZArith List String Bool Lia Floats.
From Stdlib Require Uint63.
Import ListNotations.
Local Open Scope string_scope.
Local Open Scope Z_scope.

(* ================================================================== *)
(** ** Machine integers *)

Module Int.

(** INT_MIN = -2^31 and INT_MAX = 2^31 - 1. *)
Definition min_int : Z := -2147483648.
Definition max_int : Z := 2147483647.

Definition in_range (z : Z) : Prop := min_int <= z <= max_int.

(** Reduction of a mathematical integer to the [int] with the same low 32
    bits. *)
Definition wrap (z : Z) : Z := (z + 2147483648) mod 4294967296 - 2147483648.

Definition add (a b : Z) : Z := wrap (a + b).
Definition sub (a b : Z) : Z := wrap (a - b).
Definition mul (a b : Z) : Z := wrap (a * b).
(** [a / b] on [int] truncates toward zero; the caller rules out [b = 0]. *)
Definition quot (a b : Z) : Z := wrap (Z.quot a b).

(** [int(v.size())] *)
Definition of_size (n : nat) : Z := wrap (Z.of_nat n).

End Int.

#[global] Arguments Int.wrap : simpl never.
Declare Scope int_scope.
#[global] Arguments Int.add (a b)%_int_scope : simpl never.
#[global] Arguments Int.sub (a b)%_int_scope : simpl never.
#[global] Arguments Int.mul (a b)%_int_scope : simpl never.
#[global] Arguments Int.quot (a b)%_int_scope : simpl never.
#[global] Arguments Int.of_size : simpl never.

Delimit Scope int_scope with int.
Infix "+" := Int.add : int_scope.
Infix "-" := Int.sub : int_scope.
Infix "*" := Int.mul : int_scope.
Infix "/" := Int.quot : int_scope.

(* ================================================================== *)
(** ** Doubles *)

Module Double.

(** [DBL_MAX] of <cfloat>. *)
Definition DBL_MAX : float := 0x1.fffffffffffffp+1023%float.

(** [(double) n] for an [int] n: exact, every 32-bit integer is a double. *)
Definition of_int (n : Z) : float :=
  if n <? 0 then (- PrimFloat.of_uint63 (Uint63.of_Z (- n)))%float
  else PrimFloat.of_uint63 (Uint63.of_Z n).

(** The integer [std::floor] yields, when its argument is a number. *)
Definition floor (x : float) : option Z :=
  match Prim2SF x with
  | S754_zero _ => Some 0
  | S754_finite s m e =>
      let v := if s then Z.neg m else Z.pos m in
      Some (if 0 <=? e then v * 2 ^ e else v / 2 ^ (- e))
  | S754_infinity _ | S754_nan => None
  end.

(** A number, as opposed to an infinity or a NaN. *)
Definition finite (x : float) : bool :=
  match Prim2SF x with
  | S754_zero _ | S754_finite _ _ _ => true
  | S754_infinity _ | S754_nan => false
  end.

Definition not_nan (x : float) : bool :=
  match Prim2SF x with
  | S754_nan => false
  | _ => true
  end.

End Double.

(* ================================================================== *)
(** ** Exceptions, and the monad of the queries *)

Inductive exn : Type :=
| THROW (msg : string)            (* the THROW macro of the error handling *)
| runtime_error (msg : string)    (* throw std::runtime_error(msg) *)
| field_not_found (keyword : string) (* the parser has no such field *)
| undefined_behaviour.            (* a read outside a vector, a division of
                                     an int by 0, an unrepresentable cast *)

(** The fields fetched from the parser so far, oldest first. *)
Definition trace : Type := list string.

Definition M (A : Type) : Type := trace -> (exn + A) * trace.

Definition ret {A : Type} (a : A) : M A := fun t => (inr a, t).
Definition throw {A : Type} (e : exn) : M A := fun t => (inl e, t).
Definition bind {A B : Type} (m : M A) (f : A -> M B) : M B :=
  fun t =>
    match m t with
    | (inl e, t') => (inl e, t')
    | (inr a, t') => f a t'
    end.

Notation "x <- m ;; k" := (bind m (fun x => k))
  (at level 61, m at next level, right associativity).
Notation "m ;;; k" := (bind m (fun _ => k))
  (at level 61, right associativity).

(** A query run from the empty trace. *)
Definition run {A : Type} (m : M A) : (exn + A) * trace := m [].

(** [v[ix]] on a [std::vector]. *)
Definition vec_at {A : Type} (v : list A) (ix : Z) : M A :=
  if ix <? 0 then throw undefined_behaviour
  else match nth_error v (Z.to_nat ix) with
       | Some a => ret a
       | None => throw undefined_behaviour
       end.

(** [int(std::floor(x))]: the cast is undefined for a value that is not an
    [int]. *)
Definition int_of_floor (x : float) : M Z :=
  match Double.floor x with
  | Some z => if (Int.min_int <=? z) && (z <=? Int.max_int) then ret z
              else throw undefined_behaviour
  | None => throw undefined_behaviour
  end.

(** [a / b] on [int]. *)
Definition int_div (a b : Z) : M Z :=
  if b =? 0 then throw undefined_behaviour else ret (a / b)%int.

(* ================================================================== *)
(** ** The parser (EclipseGridParser.hpp, SpecialEclipseFields.hpp) *)

(** Modelled from the spec: the structured SPECGRID record of
    SpecialEclipseFields.hpp, of which only the 3-integer [dimensions] field
    is used. *)
Record SPECGRID : Type := { dimensions : Z * Z * Z }.

(** Modelled from the spec: the data source EclipseGridParser, which gives
    named fields: sequences of int, sequences of double, and the SPECGRID
    record. *)
Record EclipseGridParser : Type := {
  integer_field_map : string -> option (list Z);
  floating_field_map : string -> option (list float);
  specgrid_field : option SPECGRID
}.

Definition is_some {A : Type} (o : option A) : bool :=
  match o with Some _ => true | None => false end.

Definition hasField (p : EclipseGridParser) (keyword : string) : bool :=
  is_some (integer_field_map p keyword)
  || is_some (floating_field_map p keyword)
  || ((keyword =? "SPECGRID")%string && is_some (specgrid_field p)).

Definition hasFields (p : EclipseGridParser) (keywords : list string) : bool :=
  forallb (hasField p) keywords.

Definition getIntegerValue (p : EclipseGridParser) (keyword : string)
  : M (list Z) :=
  fun t =>
    match integer_field_map p keyword with
    | Some v => (inr v, (t ++ [keyword])%list)
    | None => (inl (field_not_found keyword), (t ++ [keyword])%list)
    end.

Definition getFloatingPointValue (p : EclipseGridParser) (keyword : string)
  : M (list float) :=
  fun t =>
    match floating_field_map p keyword with
    | Some v => (inr v, (t ++ [keyword])%list)
    | None => (inl (field_not_found keyword), (t ++ [keyword])%list)
    end.

Definition getSPECGRID (p : EclipseGridParser) : M SPECGRID :=
  fun t =>
    match specgrid_field p with
    | Some s => (inr s, (t ++ ["SPECGRID"])%list)
    | None => (inl (field_not_found "SPECGRID"), (t ++ ["SPECGRID"])%list)
    end.

(* ================================================================== *)
(** ** class EclipseGridInspector *)

(** [boost::array<int, 3>] *)
Record int3 : Type := mk_int3 { idx0 : Z; idx1 : Z; idx2 : Z }.

(** The data members. *)
Record Inspector : Type := {
  parser_ : EclipseGridParser;
  logical_gridsize_ : int3
}.

(** The constructor. *)
Definition EclipseGridInspector (parser : EclipseGridParser) : M Inspector :=
  if negb (hasFields parser ["COORD"; "ZCORN"]) then
    throw (THROW "Needed field is missing in file")
  else if hasField parser "SPECGRID" then
    sgr <- getSPECGRID parser ;;
    let '(d0, d1, d2) := dimensions sgr in
    ret {| parser_ := parser; logical_gridsize_ := mk_int3 d0 d1 d2 |}
  else if hasField parser "DIMENS" then
    dim <- getIntegerValue parser "DIMENS" ;;
    d0 <- vec_at dim 0 ;;
    d1 <- vec_at dim 1 ;;
    d2 <- vec_at dim 2 ;;
    ret {| parser_ := parser; logical_gridsize_ := mk_int3 d0 d1 d2 |}
  else
    throw (THROW "Found neither SPECGRID nor DIMENS in file. At least one is needed.").

Section Queries.

Variable g : Inspector.

(** [logical_gridsize_[0]], [logical_gridsize_[1]], [logical_gridsize_[2]]. *)
Let nx : Z := idx0 (logical_gridsize_ g).
Let ny : Z := idx1 (logical_gridsize_ g).
Let nz : Z := idx2 (logical_gridsize_ g).

Definition checkLogicalCoords (i j k : Z) : M unit :=
  if (i <? 0) || (i >=? nx) then
    throw (runtime_error "First coordinate out of bounds")
  else if (j <? 0) || (j >=? ny) then
    throw (runtime_error "Second coordinate out of bounds")
  else if (k <? 0) || (k >=? nz) then
    throw (runtime_error "Third coordinate out of bounds")
  else ret tt.

Definition gridSize : int3 := mk_int3 nx ny nz.

(** The eight ZCORN values of cell (i, j, k), as a [boost::array<double, 8>]. *)
Definition cellZvals (i j k : Z) : M (list float) :=
  z <- getFloatingPointValue (parser_ g) "ZCORN" ;;
  let num_cells := (nx * ny * nz)%int in
  if negb ((8 * num_cells)%int =? Int.of_size (List.length z)) then
    throw (runtime_error "Wrong size of ZCORN field")
  else
    let delta0 := 1 in
    let delta1 := (2 * nx)%int in
    let delta2 := (4 * nx * ny)%int in
    let ix := (2 * (i * delta0 + j * delta1 + k * delta2))%int in
    c0 <- vec_at z ix ;;
    c1 <- vec_at z (ix + delta0)%int ;;
    c2 <- vec_at z (ix + delta1)%int ;;
    c3 <- vec_at z (ix + delta1 + delta0)%int ;;
    c4 <- vec_at z (ix + delta2)%int ;;
    c5 <- vec_at z (ix + delta2 + delta0)%int ;;
    c6 <- vec_at z (ix + delta2 + delta1)%int ;;
    c7 <- vec_at z (ix + delta2 + delta1 + delta0)%int ;;
    ret [c0; c1; c2; c3; c4; c5; c6; c7].

(** [cellz[n]] on a [boost::array<double, 8>]. *)
Definition arr (cellz : list float) (n : nat) : float := nth n cellz 0%float.

(** The dips of cell (i, j, k): x-dip first, y-dip second.  The call
    [flush(std::cout)] between the two lengths writes nothing and is not
    modelled. *)
Definition cellDips (i j k : Z) : M (float * float) :=
  checkLogicalCoords i j k ;;;
  pillc <- getFloatingPointValue (parser_ g) "COORD" ;;
  let num_pillars := ((nx + 1) * (ny + 1))%int in
  if negb ((6 * num_pillars)%int =? Int.of_size (List.length pillc)) then
    throw (runtime_error "Wrong size of COORD field.")
  else
  z <- getFloatingPointValue (parser_ g) "ZCORN" ;;
  let num_cells := (nx * ny * nz)%int in
  if negb ((8 * num_cells)%int =? Int.of_size (List.length z)) then
    throw (runtime_error "Wrong size of ZCORN field")
  else
  cellz <- cellZvals i j k ;;
  let numxpill := (nx + 1)%int in
  let pix := (i + j * numxpill)%int in
  xhi <- vec_at pillc (6 * (pix + 1))%int ;;
  xlo <- vec_at pillc (6 * pix)%int ;;
  let cell_xlength := (xhi - xlo)%float in
  let xrise0 := ((arr cellz 1 - arr cellz 0) / cell_xlength)%float in
  let xrise1 := ((arr cellz 3 - arr cellz 2) / cell_xlength)%float in
  let xrise2 := ((arr cellz 5 - arr cellz 4) / cell_xlength)%float in
  let xrise3 := ((arr cellz 7 - arr cellz 6) / cell_xlength)%float in
  yhi <- vec_at pillc (6 * (pix + numxpill) + 1)%int ;;
  ylo <- vec_at pillc (6 * pix + 1)%int ;;
  let cell_ylength := (yhi - ylo)%float in
  let yrise0 := ((arr cellz 2 - arr cellz 0) / cell_ylength)%float in
  let yrise1 := ((arr cellz 3 - arr cellz 1) / cell_ylength)%float in
  let yrise2 := ((arr cellz 6 - arr cellz 4) / cell_ylength)%float in
  let yrise3 := ((arr cellz 7 - arr cellz 5) / cell_ylength)%float in
  ret (((xrise0 + xrise1 + xrise2 + xrise3) / 4)%float,
       ((yrise0 + yrise1 + yrise2 + yrise3) / 4)%float).

Definition cellIdxToLogicalCoords (cell_idx : Z) : M int3 :=
  q <- int_of_floor (PrimFloat.div (Double.of_int (cell_idx + 1)%int)
                                   (Double.of_int (nx * ny)%int)) ;;
  let horIdx := ((cell_idx + 1) - q * nx * ny)%int in
  let horIdx := if horIdx =? 0 then (nx * ny)%int else horIdx in
  r <- int_of_floor (PrimFloat.div (Double.of_int horIdx)
                                   (Double.of_int nx)) ;;
  let i := (horIdx - r * nx)%int in
  let i := if i =? 0 then ny else i in
  j' <- int_div (horIdx - i)%int nx ;;
  let j := (j' + 1)%int in
  k' <- int_div ((cell_idx + 1) - nx * (j - 1) - 1)%int (nx * ny)%int ;;
  let k := (k' + 1)%int in
  ret (mk_int3 (i - 1)%int (j - 1)%int (k - 1)%int).

Definition cellVolumeVerticalPillars (i j k : Z) : M float :=
  checkLogicalCoords i j k ;;;
  pillc <- getFloatingPointValue (parser_ g) "COORD" ;;
  let num_pillars := ((nx + 1) * (ny + 1))%int in
  if negb ((6 * num_pillars)%int =? Int.of_size (List.length pillc)) then
    throw (runtime_error "Wrong size of COORD field.")
  else
  z <- getFloatingPointValue (parser_ g) "ZCORN" ;;
  let num_cells := (nx * ny * nz)%int in
  if negb ((8 * num_cells)%int =? Int.of_size (List.length z)) then
    throw (runtime_error "Wrong size of ZCORN field")
  else
  let numxpill := (nx + 1)%int in
  let pix := (i + j * numxpill)%int in
  px0 <- vec_at pillc (6 * pix)%int ;;
  px1 <- vec_at pillc (6 * (pix + 1))%int ;;
  px2 <- vec_at pillc (6 * (pix + numxpill))%int ;;
  px3 <- vec_at pillc (6 * (pix + numxpill + 1))%int ;;
  py0 <- vec_at pillc (6 * pix + 1)%int ;;
  py1 <- vec_at pillc (6 * (pix + 1) + 1)%int ;;
  py2 <- vec_at pillc (6 * (pix + numxpill) + 1)%int ;;
  py3 <- vec_at pillc (6 * (pix + numxpill + 1) + 1)%int ;;
  let diag1_0 := (px3 - px0)%float in
  let diag1_1 := (py3 - py0)%float in
  let diag2_0 := (px2 - px1)%float in
  let diag2_1 := (py2 - py1)%float in
  let area := (0.5 * (diag1_0 * diag2_1 - diag1_1 * diag2_0))%float in
  let delta0 := 1 in
  let delta1 := (2 * nx)%int in
  let delta2 := (4 * nx * ny)%int in
  let ix := (2 * (i * delta0 + j * delta1 + k * delta2))%int in
  c0 <- vec_at z ix ;;
  c1 <- vec_at z (ix + delta0)%int ;;
  c2 <- vec_at z (ix + delta1)%int ;;
  c3 <- vec_at z (ix + delta1 + delta0)%int ;;
  c4 <- vec_at z (ix + delta2)%int ;;
  c5 <- vec_at z (ix + delta2 + delta0)%int ;;
  c6 <- vec_at z (ix + delta2 + delta1)%int ;;
  c7 <- vec_at z (ix + delta2 + delta1 + delta0)%int ;;
  let diffz := [c4 - c0; c5 - c1; c6 - c2; c7 - c3]%float in
  let averzdiff := (0.25 * fold_left PrimFloat.add diffz 0)%float in
  ret (averzdiff * area)%float.

(** One round of the pillar loop of [getGridLimits]; the limits are
    (xmin, xmax, ymin, ymax). *)
Definition limits_step (coord : list float)
    (lim : float * float * float * float) (pillarindex : Z)
  : M (float * float * float * float) :=
  let '(xmin, xmax, ymin, ymax) := lim in
  c0 <- vec_at coord (pillarindex * 6 + 0)%int ;;
  let xmax := if (xmax <? c0)%float then c0 else xmax in
  let xmin := if (c0 <? xmin)%float then c0 else xmin in
  c1 <- vec_at coord (pillarindex * 6 + 1)%int ;;
  let ymax := if (ymax <? c1)%float then c1 else ymax in
  let ymin := if (c1 <? ymin)%float then c1 else ymin in
  c3 <- vec_at coord (pillarindex * 6 + 3)%int ;;
  let xmax := if (xmax <? c3)%float then c3 else xmax in
  let xmin := if (c3 <? xmin)%float then c3 else xmin in
  c4 <- vec_at coord (pillarindex * 6 + 4)%int ;;
  let ymax := if (ymax <? c4)%float then c4 else ymax in
  let ymin := if (c4 <? ymin)%float then c4 else ymin in
  ret (xmin, xmax, ymin, ymax).

(** [for (pillarindex = start; pillarindex < pillars; ++pillarindex)], with
    [n] rounds left. *)
Fixpoint pillar_loop (coord : list float) (n : nat) (pillarindex : Z)
    (lim : float * float * float * float)
  : M (float * float * float * float) :=
  match n with
  | O => ret lim
  | S n' =>
      lim' <- limits_step coord lim pillarindex ;;
      pillar_loop coord n' (pillarindex + 1)%int lim'
  end.

(** [*std::min_element(first, last)]: undefined on an empty range. *)
Definition min_element (v : list float) : M float :=
  match v with
  | [] => throw undefined_behaviour
  | x :: r =>
      ret (fold_left (fun smallest y =>
                        if (y <? smallest)%float then y else smallest) r x)
  end.

Definition max_element (v : list float) : M float :=
  match v with
  | [] => throw undefined_behaviour
  | x :: r =>
      ret (fold_left (fun largest y =>
                        if (largest <? y)%float then y else largest) r x)
  end.

(** The limits [xmin; xmax; ymin; ymax; zmin; zmax]. *)
Definition getGridLimits : M (list float) :=
  if negb (hasField (parser_ g) "COORD" && hasField (parser_ g) "ZCORN"
           && hasField (parser_ g) "SPECGRID") then
    throw (runtime_error "EclipseGridInspector: Grid does not have SPECGRID, COORD, and ZCORN, can't find dimensions.")
  else
  coord <- getFloatingPointValue (parser_ g) "COORD" ;;
  zcorn <- getFloatingPointValue (parser_ g) "ZCORN" ;;
  let pillars := ((nx + 1) * (ny + 1))%int in
  lim <- pillar_loop coord (Z.to_nat pillars) 0
           (Double.DBL_MAX, (- Double.DBL_MAX)%float,
            Double.DBL_MAX, (- Double.DBL_MAX)%float) ;;
  let '(xmin, xmax, ymin, ymax) := lim in
  zmin <- min_element zcorn ;;
  zmax <- max_element zcorn ;;
  ret [xmin; xmax; ymin; ymax; zmin; zmax].

(** [cellDips(int cell_idx)], the wrapper of [cellDips(i, j, k)]. *)
Definition cellDips_idx (cell_idx : Z) : M (float * float) :=
  idxs <- cellIdxToLogicalCoords cell_idx ;;
  cellDips (idx0 idxs) (idx1 idxs) (idx2 idxs).

(** [cellVolumeVerticalPillars(int cell_idx)]. *)
Definition cellVolumeVerticalPillars_idx (cell_idx : Z) : M float :=
  idxs <- cellIdxToLogicalCoords cell_idx ;;
  cellVolumeVerticalPillars (idx0 idxs) (idx1 idxs) (idx2 idxs).

End Queries.

(* ================================================================== *)
(** ** Sample data sources *)

Module Samples.

Definition no_ints : string -> option (list Z) := fun _ => None.

(** A parser holding COORD, ZCORN and a SPECGRID record. *)
Definition grid_parser (dims : Z * Z * Z) (coord zcorn : list float)
  : EclipseGridParser :=
  {| integer_field_map := no_ints;
     floating_field_map := fun kw =>
       if (kw =? "COORD")%string then Some coord
       else if (kw =? "ZCORN")%string then Some zcorn
       else None;
     specgrid_field := Some {| dimensions := dims |} |}.

(** A vertical pillar at (x, y) from depth 0 to depth 1. *)
Definition pillar (x y : float) : list float := [x; y; 0; x; y; 1]%float.

(** The four pillars of the unit square, in COORD order. *)
Definition unit_square : list float :=
  (pillar 0 0 ++ pillar 1 0 ++ pillar 0 1 ++ pillar 1 1)%list.

(** The ZCORN of one cell with top at depth 0 and bottom at depth 1. *)
Definition unit_depths : list float := [0; 0; 0; 0; 1; 1; 1; 1]%float.

(** [n] consecutive doubles from..from+n-1. *)
Fixpoint ramp (n : nat) (from : float) : list float :=
  match n with
  | O => []
  | S n' => from :: ramp n' (from + 1)%float
  end.

(** COORD, ZCORN and a SPECGRID record, and no DIMENS. *)
Definition specgrid_only : EclipseGridParser :=
  grid_parser (2, 3, 4) [] [].

(** COORD, ZCORN and a DIMENS triple, and no SPECGRID. *)
Definition dimens_only : EclipseGridParser :=
  {| integer_field_map := fun kw =>
       if (kw =? "DIMENS")%string then Some [5; 6; 7] else None;
     floating_field_map := fun kw =>
       if (kw =? "COORD")%string then Some []
       else if (kw =? "ZCORN")%string then Some []
       else None;
     specgrid_field := None |}.

(** A SPECGRID record with a zero and a negative dimension. *)
Definition degenerate : EclipseGridParser :=
  grid_parser (0, -1, 5) [] [].

(** The one-cell grid on the unit square whose ZCORN is one value short. *)
Definition short_zcorn : EclipseGridParser :=
  grid_parser (1, 1, 1) unit_square [0; 0; 0; 0; 1; 1; 1]%float.

(** The unit square with its pillars listed right to left: COORD gives the
    pillar at x = 1 before the pillar at x = 0 in each row. *)
Definition mirrored_square : list float :=
  (pillar 1 0 ++ pillar 0 0 ++ pillar 1 1 ++ pillar 0 1)%list.

(** Four pillars of which the +x neighbour stands on the near pillar's x, and
    the +y neighbour on its y. *)
Definition collapsed_square : list float :=
  (pillar 0 0 ++ pillar 0 0 ++ pillar 0 0 ++ pillar 1 1)%list.

(** The depths of one cell that dips by 1 along x and by 2 along y. *)
Definition tilted_depths : list float := [0; 1; 2; 3; 1; 2; 3; 4]%float.

(** A pillar from (x, y, 0) that leans to (x + 4, y + 6, 1). *)
Definition leaning_pillar (x y : float) : list float :=
  [x; y; 0; x + 4; y + 6; 1]%float.

(** Four leaning pillars with their tops on the unit square. *)
Definition leaning_square : list float :=
  (leaning_pillar 0 0 ++ leaning_pillar 1 0 ++ leaning_pillar 0 1
   ++ leaning_pillar 1 1)%list.

(** COORD, ZCORN and a DIMENS field of two integers, and no SPECGRID. *)
Definition short_dimens : EclipseGridParser :=
  {| integer_field_map := fun kw =>
       if (kw =? "DIMENS")%string then Some [5; 6] else None;
     floating_field_map := fun kw =>
       if (kw =? "COORD")%string then Some []
       else if (kw =? "ZCORN")%string then Some []
       else None;
     specgrid_field := None |}.

(** The depths of a cell of no thickness, at depth 2. *)
Definition pinched_depths : list float := [2; 2; 2; 2; 2; 2; 2; 2]%float.

End Samples.

(* ================================================================== *)
(** ** Vocabulary of the specification *)

(** [v[ix]] as a value, for an index inside the vector. *)
Definition elt (v : list float) (ix : Z) : float := nth (Z.to_nat ix) v 0%float.

(** An inspector with the given parser and logical grid size. *)
Definition inspector_of (p : EclipseGridParser) (nx ny nz : Z) : Inspector :=
  {| parser_ := p; logical_gridsize_ := mk_int3 nx ny nz |}.

(** The layout of the depth array in the words of the specification: three
    strides, a base offset, and eight offsets in the corner order
    LLL, HLL, LHL, HHL, LLH, HLH, LHH, HHH. *)
Module Layout.

Definition stride_i : Z := 1.
Definition stride_j (nx : Z) : Z := 2 * nx.
Definition stride_k (nx ny : Z) : Z := 4 * nx * ny.

Definition base (nx ny i j k : Z) : Z :=
  2 * (i * stride_i + j * stride_j nx + k * stride_k nx ny).

Definition corner_offsets (nx ny : Z) : list Z :=
  [ 0; stride_i; stride_j nx; stride_j nx + stride_i;
    stride_k nx ny; stride_k nx ny + stride_i;
    stride_k nx ny + stride_j nx;
    stride_k nx ny + stride_j nx + stride_i ].

(** The eight depths of cell (i, j, k). *)
Definition corners (nx ny : Z) (z : list float) (i j k : Z) : list float :=
  map (fun off => elt z (base nx ny i j k + off)) (corner_offsets nx ny).

(** The number of the pillar at logical position (i, j). *)
Definition pillar_index (nx i j : Z) : Z := i + j * (nx + 1).

End Layout.

(** A logical coordinate triple inside the grid. *)
Definition in_bounds (nx ny nz i j k : Z) : Prop :=
  0 <= i < nx /\ 0 <= j < ny /\ 0 <= k < nz.

(** An out-of-bounds error that names the first axis, in the order first,
    second, third, on which (i, j, k) leaves the grid: the axes named before
    it are inside. *)
Definition names_first_offending_axis (nx ny nz i j k : Z) (e : exn) : Prop :=
  (e = runtime_error "First coordinate out of bounds" /\ ~ 0 <= i < nx)
  \/ (e = runtime_error "Second coordinate out of bounds"
      /\ 0 <= i < nx /\ ~ 0 <= j < ny)
  \/ (e = runtime_error "Third coordinate out of bounds"
      /\ 0 <= i < nx /\ 0 <= j < ny /\ ~ 0 <= k < nz).

(** A query rejects (i, j, k): it fails with such an error and has fetched no
    array from the parser. *)
Definition rejects_out_of_bounds {A : Type}
    (query : Inspector -> Z -> Z -> Z -> M A)
    (p : EclipseGridParser) (nx ny nz i j k : Z) (t : trace) : Prop :=
  exists e, names_first_offending_axis nx ny nz i j k e
            /\ query (inspector_of p nx ny nz) i j k t = (inl e, t).

(** The grid whose array sizes and indices are all values of [int]. *)
Definition grid_fits (nx ny nz : Z) : Prop :=
  0 < nx /\ 0 < ny /\ 0 < nz
  /\ 8 * nx * ny * nz <= Int.max_int
  /\ 6 * (nx + 1) * (ny + 1) <= Int.max_int.

(** [boost::array<int, 3>] from a triple. *)
Definition int3_of (d : Z * Z * Z) : int3 :=
  let '(d0, d1, d2) := d in mk_int3 d0 d1 d2.

(** Where the claim on the construction takes the grid size from: SPECGRID
    when SPECGRID and DIMENS are both present, the DIMENS triple otherwise. *)
Definition size_source_as_claimed (p : EclipseGridParser) (size : int3)
  : Prop :=
  if hasField p "SPECGRID" && hasField p "DIMENS" then
    exists s, specgrid_field p = Some s /\ size = int3_of (dimensions s)
  else
    exists d0 d1 d2 rest,
      integer_field_map p "DIMENS" = Some (d0 :: d1 :: d2 :: rest)
      /\ size = mk_int3 d0 d1 d2.

(** All three components strictly positive. *)
Definition positive_size (size : int3) : Prop :=
  0 < idx0 size /\ 0 < idx1 size /\ 0 < idx2 size.

(** The outcome of a run is a configuration error: one of the errors raised
    by the THROW macro for a missing field. *)
Definition configuration_error_of {A : Type} (r : (exn + A) * trace) : Prop :=
  exists msg, fst r = inl (THROW msg).

(** The triples [cellIdxToLogicalCoords] yields for the linear indices
    0 .. n-1, in order. *)
Definition logical_coords_table (g : Inspector) (n : nat)
  : list (exn + int3) :=
  map (fun idx => fst (run (cellIdxToLogicalCoords g (Z.of_nat idx))))
      (seq 0 n).

(** The two size errors. *)
Definition wrong_coord_size : exn := runtime_error "Wrong size of COORD field.".
Definition wrong_zcorn_size : exn := runtime_error "Wrong size of ZCORN field".

(** The size-mismatch error of the first array, COORD before ZCORN, whose
    length disagrees with the grid size, when ZCORN's does. *)
Definition first_size_error (nx ny : Z) (coord : list float) : exn :=
  if Z.of_nat (List.length coord) =? 6 * (nx + 1) * (ny + 1)
  then wrong_zcorn_size else wrong_coord_size.

(** The geometry of one cell in the words of the specification. *)
Module Geometry.

(** The top (x, y) of pillar number [n]: the first two of its six values. *)
Definition pillar_top (coord : list float) (n : Z) : float * float :=
  (elt coord (6 * n), elt coord (6 * n + 1)).

(** The bottom (x, y) of pillar number [n]: its fourth and fifth values. *)
Definition pillar_bottom (coord : list float) (n : Z) : float * float :=
  (elt coord (6 * n + 3), elt coord (6 * n + 4)).

(** The four pillars of cell (i, j): 0 = near, 1 = +x, 2 = +y, 3 = +x+y. *)
Definition near (nx i j : Z) : Z := Layout.pillar_index nx i j.
Definition p0 (nx : Z) (coord : list float) (i j : Z) : float * float :=
  pillar_top coord (near nx i j).
Definition p1 (nx : Z) (coord : list float) (i j : Z) : float * float :=
  pillar_top coord (near nx i j + 1).
Definition p2 (nx : Z) (coord : list float) (i j : Z) : float * float :=
  pillar_top coord (near nx i j + (nx + 1)).
Definition p3 (nx : Z) (coord : list float) (i j : Z) : float * float :=
  pillar_top coord (near nx i j + (nx + 1) + 1).

(** The corners of a cell by name, from its eight depths in corner order. *)
Definition LLL (c : list float) : float := nth 0 c 0%float.
Definition HLL (c : list float) : float := nth 1 c 0%float.
Definition LHL (c : list float) : float := nth 2 c 0%float.
Definition HHL (c : list float) : float := nth 3 c 0%float.
Definition LLH (c : list float) : float := nth 4 c 0%float.
Definition HLH (c : list float) : float := nth 5 c 0%float.
Definition LHH (c : list float) : float := nth 6 c 0%float.
Definition HHH (c : list float) : float := nth 7 c 0%float.

(** The 2-D cross product of the diagonals diag1 = q3 - q0, diag2 = q2 - q1. *)
Definition diagonal_cross (q0 q1 q2 q3 : float * float) : float :=
  let dx1 := (fst q3 - fst q0)%float in
  let dy1 := (snd q3 - snd q0)%float in
  let dx2 := (fst q2 - fst q1)%float in
  let dy2 := (snd q2 - snd q1)%float in
  (dx1 * dy2 - dy1 * dx2)%float.

(** Half the cross product, with its sign. *)
Definition signed_area (q0 q1 q2 q3 : float * float) : float :=
  (0.5 * diagonal_cross q0 q1 q2 q3)%float.

(** Half the magnitude of the cross product. *)
Definition magnitude_area (q0 q1 q2 q3 : float * float) : float :=
  (0.5 * abs (diagonal_cross q0 q1 q2 q3))%float.

(** A quarter of the sum, taken from 0.0 in the order LLL->LLH, HLL->HLH,
    LHL->LHH, HHL->HHH, of the four top-to-bottom depth differences. *)
Definition average_height (c : list float) : float :=
  (0.25 * (0 + (LLH c - LLL c) + (HLH c - HLL c) + (LHH c - LHL c)
             + (HHH c - HHL c)))%float.

(** The pillar spacings of cell (i, j), from the tops of adjacent pillars. *)
Definition cell_xlength (nx : Z) (coord : list float) (i j : Z) : float :=
  (fst (p1 nx coord i j) - fst (p0 nx coord i j))%float.
Definition cell_ylength (nx : Z) (coord : list float) (i j : Z) : float :=
  (snd (p2 nx coord i j) - snd (p0 nx coord i j))%float.

(** The average over the four corner pairs differing only along x
    (LLL->HLL, LHL->HHL, LLH->HLH, LHH->HHH) of rise over length. *)
Definition x_dip (xlength : float) (c : list float) : float :=
  (((HLL c - LLL c) / xlength + (HHL c - LHL c) / xlength
    + (HLH c - LLH c) / xlength + (HHH c - LHH c) / xlength) / 4)%float.

(** The same along y (LLL->LHL, HLL->HHL, LLH->LHH, HLH->HHH). *)
Definition y_dip (ylength : float) (c : list float) : float :=
  (((LHL c - LLL c) / ylength + (HHL c - HLL c) / ylength
    + (LHH c - LLH c) / ylength + (HHH c - HLH c) / ylength) / 4)%float.

End Geometry.

(** A length that is the difference of two equal coordinates: +0, or a NaN
    when the coordinate is not a number. *)
Definition degenerate_length (d : float) : Prop :=
  Prim2SF d = S754_zero false \/ Prim2SF d = S754_nan.

(** The arrays of a parser have the sizes the grid asks for. *)
Definition arrays_sized (p : EclipseGridParser) (nx ny nz : Z)
    (coord z : list float) : Prop :=
  floating_field_map p "COORD" = Some coord
  /\ floating_field_map p "ZCORN" = Some z
  /\ Z.of_nat (List.length coord) = 6 * (nx + 1) * (ny + 1)
  /\ Z.of_nat (List.length z) = 8 * nx * ny * nz.

(** The extents of a grid in the words of the specification. *)
Module Extent.

(** [m] is a least, or a greatest, value of [l]. *)
Definition is_min_of (m : float) (l : list float) : Prop :=
  In m l /\ forall x, In x l -> (m <=? x)%float = true.
Definition is_max_of (m : float) (l : list float) : Prop :=
  In m l /\ forall x, In x l -> (x <=? m)%float = true.

(** The pillar numbers 0 .. (nx+1)*(ny+1) - 1. *)
Definition pillar_numbers (nx ny : Z) : list Z :=
  map Z.of_nat (seq 0 (Z.to_nat ((nx + 1) * (ny + 1)))).

(** The x, and the y, of the tops of all pillars. *)
Definition top_xs (nx ny : Z) (coord : list float) : list float :=
  map (fun n => fst (Geometry.pillar_top coord n)) (pillar_numbers nx ny).
Definition top_ys (nx ny : Z) (coord : list float) : list float :=
  map (fun n => snd (Geometry.pillar_top coord n)) (pillar_numbers nx ny).

(** The x, and the y, of the tops and of the bottoms of all pillars. *)
Definition scanned_xs (coord : list float) (pillars : list Z) : list float :=
  flat_map (fun n => [fst (Geometry.pillar_top coord n);
                      fst (Geometry.pillar_bottom coord n)]) pillars.
Definition scanned_ys (coord : list float) (pillars : list Z) : list float :=
  flat_map (fun n => [snd (Geometry.pillar_top coord n);
                      snd (Geometry.pillar_bottom coord n)]) pillars.
Definition end_xs (nx ny : Z) (coord : list float) : list float :=
  scanned_xs coord (pillar_numbers nx ny).
Definition end_ys (nx ny : Z) (coord : list float) : list float :=
  scanned_ys coord (pillar_numbers nx ny).

(** One comparison of a running minimum, or maximum, with a value. *)
Definition min_step (m c : float) : float := if (c <? m)%float then c else m.
Definition max_step (m c : float) : float := if (m <? c)%float then c else m.

End Extent.

(** The error of [getGridLimits] for a missing field. *)
Definition no_limits_error : exn :=
  runtime_error "EclipseGridInspector: Grid does not have SPECGRID, COORD, and ZCORN, can't find dimensions.".

(** Shapes of a cell, by its eight depths in corner order. *)
Module Shape.

(** The depths do not vary along x: in each of the four corner pairs that
    differ only along x both depths are one number. *)
Definition level_along_x (c : list float) : Prop :=
  Geometry.HLL c = Geometry.LLL c /\ Geometry.HHL c = Geometry.LHL c
  /\ Geometry.HLH c = Geometry.LLH c /\ Geometry.HHH c = Geometry.LHH c
  /\ is_finite (Geometry.LLL c) = true /\ is_finite (Geometry.LHL c) = true
  /\ is_finite (Geometry.LLH c) = true /\ is_finite (Geometry.LHH c) = true.

(** The same along y. *)
Definition level_along_y (c : list float) : Prop :=
  Geometry.LHL c = Geometry.LLL c /\ Geometry.HHL c = Geometry.HLL c
  /\ Geometry.LHH c = Geometry.LLH c /\ Geometry.HHH c = Geometry.HLH c
  /\ is_finite (Geometry.LLL c) = true /\ is_finite (Geometry.HLL c) = true
  /\ is_finite (Geometry.LLH c) = true /\ is_finite (Geometry.HLH c) = true.

(** The cell has no thickness: on each of the four vertical edges the bottom
    depth is the top depth, a number. *)
Definition pinched_out (c : list float) : Prop :=
  Geometry.LLH c = Geometry.LLL c /\ Geometry.HLH c = Geometry.HLL c
  /\ Geometry.LHH c = Geometry.LHL c /\ Geometry.HHH c = Geometry.HHL c
  /\ is_finite (Geometry.LLL c) = true /\ is_finite (Geometry.HLL c) = true
  /\ is_finite (Geometry.LHL c) = true /\ is_finite (Geometry.HHL c) = true.

(** A number other than zero. *)
Definition nonzero_number (d : float) : Prop :=
  is_finite d = true /\ is_zero d = false.

(** A zero of either sign. *)
Definition a_zero (x : float) : Prop := exists s, Prim2SF x = S754_zero s.

End Shape.

(** The ZCORN positions of the eight corners of cell (i, j, k). *)
Definition corner_positions (nx ny i j k : Z) : list Z :=
  map (fun off => Layout.base nx ny i j k + off) (Layout.corner_offsets nx ny).

(** The cell that a ZCORN position belongs to: the position is
    a + 2*nx*(b + 2*ny*c) with a < 2*nx and b < 2*ny, and the cell is
    (a/2, b/2, c/2). *)
Definition owner (nx ny q : Z) : Z * Z * Z :=
  ((q mod (2 * nx)) / 2,
   ((q / (2 * nx)) mod (2 * ny)) / 2,
   (q / (2 * nx) / (2 * ny)) / 2).

(** The linear index [idx] converts to an in-bounds triple (i, j, k) with
    idx = i + nx*j + nx*ny*k: i runs fastest, then j, then k. *)
Definition converts_back (g : Inspector) (nx ny nz idx : Z) : bool :=
  match run (cellIdxToLogicalCoords g idx) with
  | (inr (mk_int3 i j k), []) =>
      (0 <=? i) && (i <? nx) && (0 <=? j) && (j <? ny)
      && (0 <=? k) && (k <? nz) && (idx =? i + nx * j + nx * ny * k)
  | _ => false
  end.

(** The integers from..from+n-1. *)
Definition Zrange (from : Z) (n : nat) : list Z :=
  map (fun d => from + Z.of_nat d) (seq 0 n).

(* ================================================================== *)
(** ** Integer arithmetic without overflow *)

Lemma wrap_id (z : Z) : Int.in_range z -> Int.wrap z = z.
Proof.
  unfold Int.in_range, Int.min_int, Int.max_int, Int.wrap. intros H.
  rewrite Z.mod_small by lia. lia.
Qed.

Lemma of_size_id (n : nat) :
  Z.of_nat n <= Int.max_int -> Int.of_size n = Z.of_nat n.
Proof.
  intros H. apply wrap_id. unfold Int.in_range, Int.min_int, Int.max_int in *.
  lia.
Qed.

(** The products that occur in the index arithmetic of an in-bounds cell. *)
Lemma cell_products (nx ny nz i j k : Z) :
  0 <= i < nx -> 0 <= j < ny -> 0 <= k < nz ->
  0 <= j * nx <= nx * ny - nx
  /\ 0 <= k * nx * ny <= nx * ny * nz - nx * ny
  /\ nx <= nx * ny
  /\ nx * ny <= nx * ny * nz.
Proof.
  intros Hi Hj Hk.
  assert (Hp : 0 < nx * ny) by nia.
  assert (Hjn : j * nx <= (ny - 1) * nx) by (apply Z.mul_le_mono_nonneg_r; lia).
  assert (Hkn : k * (nx * ny) <= (nz - 1) * (nx * ny))
    by (apply Z.mul_le_mono_nonneg_r; lia).
  assert (H0 : 0 <= j * nx) by (apply Z.mul_nonneg_nonneg; lia).
  assert (H1 : 0 <= k * (nx * ny)) by (apply Z.mul_nonneg_nonneg; lia).
  assert (H2 : nx * 1 <= nx * ny) by (apply Z.mul_le_mono_nonneg_l; lia).
  assert (H3 : (nx * ny) * 1 <= (nx * ny) * nz)
    by (apply Z.mul_le_mono_nonneg_l; lia).
  repeat split; lia.
Qed.

Ltac range_solve :=
  unfold Int.in_range, Int.min_int, Int.max_int in *; lia.

(** Remove one innermost reduction whose argument is within [int]. *)
Ltac unwrap_step :=
  match goal with
  | |- context [Int.wrap ?e] =>
      lazymatch e with
      | context [Int.wrap _] => fail
      | _ => rewrite (wrap_id e) by range_solve
      end
  end.

Ltac unwrap :=
  unfold Int.add, Int.sub, Int.mul, Int.quot; repeat unwrap_step.

(** The size tests of the queries, when nothing overflows. *)
Lemma num_cells_exact (nx ny nz : Z) :
  0 < nx -> 0 < ny -> 0 < nz -> 8 * nx * ny * nz <= Int.max_int ->
  (8 * (nx * ny * nz))%int = 8 * nx * ny * nz.
Proof.
  intros Hx Hy Hz Hfit.
  assert (nx <= nx * ny) by nia.
  assert (nx * ny <= nx * ny * nz) by nia.
  unwrap. lia.
Qed.

Lemma num_pillars_exact (nx ny : Z) :
  0 < nx -> 0 < ny -> 6 * (nx + 1) * (ny + 1) <= Int.max_int ->
  (6 * ((nx + 1) * (ny + 1)))%int = 6 * (nx + 1) * (ny + 1).
Proof.
  intros Hx Hy Hfit.
  assert (0 < nx * ny) by nia.
  unwrap. lia.
Qed.

(* ================================================================== *)
(** ** Running the monad *)

Lemma vec_at_in_range {A : Type} (v : list A) (ix : Z) (d : A) (t : trace) :
  0 <= ix < Z.of_nat (List.length v) ->
  vec_at v ix t = (inr (nth (Z.to_nat ix) v d), t).
Proof.
  intros H. unfold vec_at.
  destruct (ix <? 0) eqn:E; [lia|].
  destruct (nth_error v (Z.to_nat ix)) eqn:N.
  - now rewrite (nth_error_nth v _ d N).
  - apply nth_error_None in N. lia.
Qed.

Lemma vec_at_nth_error {A : Type} (v : list A) (ix : Z) (d : A) :
  0 <= ix < Z.of_nat (List.length v) ->
  nth_error v (Z.to_nat ix) = Some (nth (Z.to_nat ix) v d).
Proof.
  intros H. apply nth_error_nth'. lia.
Qed.


(* ================================================================== *)
(** ** Corner depths (cellZvals) *)


(** Every corner offset of an in-bounds cell lies inside a depth array of
    8*nx*ny*nz values; the last one is its final element for the last cell. *)
Lemma corner_offsets_in_range (nx ny nz i j k : Z) :
  0 <= i < nx -> 0 <= j < ny -> 0 <= k < nz ->
  Forall (fun off => 0 <= Layout.base nx ny i j k + off < 8 * nx * ny * nz)
         (Layout.corner_offsets nx ny).
Proof.
  intros Hi Hj Hk.
  pose proof (cell_products nx ny nz i j k Hi Hj Hk) as (P1 & P2 & P3 & P4).
  unfold Layout.corner_offsets, Layout.base, Layout.stride_i, Layout.stride_j,
    Layout.stride_k.
  repeat constructor; lia.
Qed.

(** Expose the body of a query on [inspector_of p nx ny nz] without touching
    the arithmetic. *)
Ltac open_query :=
  cbv beta iota zeta delta
    [cellZvals cellDips cellVolumeVerticalPillars checkLogicalCoords
     getGridLimits inspector_of bind getFloatingPointValue
     parser_ logical_gridsize_ idx0 idx1 idx2 arr].

Lemma cellZvals_run (p : EclipseGridParser) (nx ny nz : Z) (z : list float)
    (i j k : Z) (t : trace) :
  floating_field_map p "ZCORN" = Some z ->
  Z.of_nat (List.length z) = 8 * nx * ny * nz ->
  8 * nx * ny * nz <= Int.max_int ->
  0 <= i < nx -> 0 <= j < ny -> 0 <= k < nz ->
  cellZvals (inspector_of p nx ny nz) i j k t
  = (inr (Layout.corners nx ny z i j k), (t ++ ["ZCORN"])%list).
Proof.
  intros Hz Hlen Hfit Hi Hj Hk.
  pose proof (cell_products nx ny nz i j k Hi Hj Hk) as (P1 & P2 & P3 & P4).
  open_query.
  rewrite Hz.
  rewrite num_cells_exact, of_size_id by lia.
  rewrite Hlen, Z.eqb_refl.
  cbv beta iota zeta delta
    [negb Layout.corners Layout.corner_offsets Layout.base Layout.stride_i
     Layout.stride_j Layout.stride_k elt map].
  unwrap.
  repeat (rewrite (vec_at_in_range z _ 0%float) by lia).
  unfold ret. now rewrite !Z.add_assoc, Z.add_0_r.
Qed.

(* ================================================================== *)
(** ** Facts of binary64 arithmetic *)

Lemma fmul_comm (x y : float) : (x * y)%float = (y * x)%float.
Proof.
  apply Prim2SF_inj. rewrite !FloatAxioms.mul_spec. unfold SF64mul, SFmul.
  destruct (Prim2SF x) as [sx|sx| |sx mx ex], (Prim2SF y) as [sy|sy| |sy my ey];
    try reflexivity; try (now rewrite xorb_comm).
  now rewrite xorb_comm, Pos.mul_comm, Z.add_comm.
Qed.

(** [x - x] is +0 for a number [x]. *)
Lemma fsub_diag (x : float) :
  Double.finite x = true -> Prim2SF (x - x) = S754_zero false.
Proof.
  unfold Double.finite. rewrite FloatAxioms.sub_spec. unfold SF64sub, SFsub.
  destruct (Prim2SF x) as [s|s| |s m e]; try discriminate; intros _.
  - now destruct s.
  - rewrite Z.sub_diag. reflexivity.
Qed.

(** Whatever is divided by a zero is an infinity or a NaN. *)
Lemma fdiv_zero (a d : float) (s : bool) :
  Prim2SF d = S754_zero s -> Double.finite (a / d) = false.
Proof.
  intros Hd. unfold Double.finite. rewrite FloatAxioms.div_spec, Hd.
  unfold SF64div, SFdiv. now destruct (Prim2SF a).
Qed.

Lemma fadd_not_finite (a b : float) :
  Double.finite a = false -> Double.finite b = false ->
  Double.finite (a + b) = false.
Proof.
  unfold Double.finite. rewrite FloatAxioms.add_spec. unfold SF64add, SFadd.
  destruct (Prim2SF a) as [sa|sa| |sa ma ea]; try discriminate;
    destruct (Prim2SF b) as [sb|sb| |sb mb eb]; try discriminate;
    intros _ _; try reflexivity.
  now destruct sa, sb.
Qed.

Lemma fdiv4_not_finite (a : float) :
  Double.finite a = false -> Double.finite (a / 4) = false.
Proof.
  unfold Double.finite. rewrite FloatAxioms.div_spec.
  change (Prim2SF 4) with (S754_finite false 4503599627370496 (-50)).
  unfold SF64div, SFdiv.
  destruct (Prim2SF a) as [sa|sa| |sa ma ea]; try discriminate; reflexivity.
Qed.

(** The comparison of two doubles, neither of them a NaN, is decided. *)
Lemma SFcompare_antisym (a b : spec_float) :
  SFcompare b a = option_map CompOpp (SFcompare a b).
Proof.
  destruct a as [sa|sa| |sa ma ea], b as [sb|sb| |sb mb eb]; cbn;
    try reflexivity;
    try (destruct sa; reflexivity); try (destruct sb; reflexivity);
    try (destruct sa, sb; reflexivity).
  assert (Hm : Pos.compare_cont Eq mb ma
               = CompOpp (Pos.compare_cont Eq ma mb))
    by (now rewrite (Pos.compare_cont_antisym ma mb Eq)).
  destruct sa, sb; try reflexivity;
    rewrite (Z.compare_antisym ea eb), Hm;
    destruct (ea ?= eb); cbn; try reflexivity;
    now destruct (Pos.compare_cont Eq ma mb).
Qed.

Lemma SFcompare_defined (a b : spec_float) :
  a <> S754_nan -> b <> S754_nan -> exists c, SFcompare a b = Some c.
Proof.
  destruct a, b; cbn; intros Ha Hb; try congruence; eauto.
Qed.

Lemma SFcompare_refl (a : spec_float) :
  a <> S754_nan -> SFcompare a a = Some Eq.
Proof.
  destruct a as [s|s| |s m e]; cbn; intros Ha; try congruence.
  - now destruct s.
  - destruct s; rewrite Z.compare_refl;
      change (Pos.compare_cont Eq m m) with (Pos.compare m m);
      now rewrite Pos.compare_refl.
Qed.

Lemma SFleb_trans (a b c : spec_float) :
  SFleb a b = true -> SFleb b c = true -> SFleb a c = true.
Proof.
  unfold SFleb, SFcompare.
  destruct a as [sa|sa| |sa ma ea], b as [sb|sb| |sb mb eb],
           c as [sc|sc| |sc mc ec];
    try discriminate; try reflexivity;
    try (destruct sa; try discriminate; try reflexivity);
    try (destruct sb; try discriminate; try reflexivity);
    try (destruct sc; try discriminate; try reflexivity);
    change (Pos.compare_cont Eq) with Pos.compare;
    destruct (Z.compare_spec ea eb); try discriminate;
    destruct (Z.compare_spec eb ec); try discriminate;
    destruct (Z.compare_spec ea ec); try reflexivity; try lia; subst;
    destruct (Pos.compare_spec ma mb); try discriminate;
    destruct (Pos.compare_spec mb mc); try discriminate;
    destruct (Pos.compare_spec ma mc); try reflexivity; try lia;
    subst; lia.
Qed.

Lemma not_nan_spec (x : float) :
  Double.not_nan x = true <-> Prim2SF x <> S754_nan.
Proof.
  unfold Double.not_nan. destruct (Prim2SF x); split; congruence.
Qed.

Lemma finite_not_nan (x : float) :
  Double.finite x = true -> Double.not_nan x = true.
Proof.
  unfold Double.finite, Double.not_nan. now destruct (Prim2SF x).
Qed.

Lemma fleb_refl (x : float) : Double.not_nan x = true -> (x <=? x)%float = true.
Proof.
  intros H. apply not_nan_spec in H.
  rewrite FloatAxioms.leb_spec. unfold SFleb. now rewrite SFcompare_refl.
Qed.

Lemma fleb_trans (x y z : float) :
  (x <=? y)%float = true -> (y <=? z)%float = true -> (x <=? z)%float = true.
Proof. rewrite !FloatAxioms.leb_spec. apply SFleb_trans. Qed.

Lemma fltb_fleb (x y : float) :
  (x <? y)%float = true -> (x <=? y)%float = true.
Proof.
  rewrite FloatAxioms.ltb_spec, FloatAxioms.leb_spec. unfold SFltb, SFleb.
  now destruct (SFcompare (Prim2SF x) (Prim2SF y)) as [[]|].
Qed.

Lemma not_fltb_fleb (x y : float) :
  Double.not_nan x = true -> Double.not_nan y = true ->
  (x <? y)%float = false -> (y <=? x)%float = true.
Proof.
  intros Hx Hy. apply not_nan_spec in Hx, Hy.
  rewrite FloatAxioms.ltb_spec, FloatAxioms.leb_spec. unfold SFltb, SFleb.
  rewrite (SFcompare_antisym (Prim2SF x) (Prim2SF y)).
  destruct (SFcompare_defined _ _ Hx Hy) as [c ->]. now destruct c.
Qed.


(** *** The largest double *)

Lemma digits2_pos_bound (m : positive) :
  Z.pos m < 2 ^ Z.pos (digits2_pos m).
Proof.
  induction m as [m IH|m IH|]; cbn [digits2_pos].
  - rewrite Pos2Z.inj_succ, Z.pow_succ_r by lia. lia.
  - rewrite Pos2Z.inj_succ, Z.pow_succ_r by lia. lia.
  - reflexivity.
Qed.

Lemma top_binade_mantissa (s : bool) (m : positive) (e : Z) :
  valid_binary (S754_finite s m e) = true ->
  e <= 971 /\ (e = 971 -> Z.pos m <= 9007199254740991).
Proof.
  unfold SpecFloat.valid_binary, bounded, canonical_mantissa, fexp, emin,
    prec, emax.
  intros H. apply andb_true_iff in H as [Hc He].
  apply Z.eqb_eq in Hc. apply Z.leb_le in He.
  split; [lia|]. intros ->.
  pose proof (digits2_pos_bound m) as Hm.
  assert (Hd : Z.pos (digits2_pos m) = 53) by lia.
  rewrite Hd in Hm.
  assert (E53 : 2 ^ 53 = 9007199254740992) by (vm_compute; reflexivity).
  rewrite E53 in Hm. clear - Hm. lia.
Qed.


Lemma Prim2SF_DBL_MAX :
  Prim2SF Double.DBL_MAX = S754_finite false 9007199254740991 971.
Proof. vm_compute. reflexivity. Qed.

Lemma Prim2SF_neg_DBL_MAX :
  Prim2SF (- Double.DBL_MAX) = S754_finite true 9007199254740991 971.
Proof. vm_compute. reflexivity. Qed.

Lemma SFltb_top (m : positive) (e : Z) :
  e <= 971 -> (e = 971 -> Z.pos m <= 9007199254740991) ->
  SFltb (S754_finite false m e) (S754_finite false 9007199254740991 971) = true
  \/ (m = 9007199254740991%positive /\ e = 971).
Proof.
  intros He Hm. unfold SFltb, SFcompare.
  destruct (Z.compare_spec e 971) as [Heq|Hlt|Hgt].
  - specialize (Hm Heq).
    destruct (Pos.compare_cont Eq m 9007199254740991) eqn:C.
    + right. split; [|exact Heq]. apply Pos.compare_eq. exact C.
    + left. reflexivity.
    + exfalso. apply Pos.compare_gt_iff in C. apply Pos2Z.pos_lt_pos in C. lia.
  - left. reflexivity.
  - exfalso. lia.
Qed.

Lemma SFltb_bottom (m : positive) (e : Z) :
  e <= 971 -> (e = 971 -> Z.pos m <= 9007199254740991) ->
  SFltb (S754_finite true 9007199254740991 971) (S754_finite true m e) = true
  \/ (m = 9007199254740991%positive /\ e = 971).
Proof.
  intros He Hm. unfold SFltb, SFcompare.
  destruct (Z.compare_spec 971 e) as [Heq|Hlt|Hgt].
  - symmetry in Heq. specialize (Hm Heq).
    destruct (Pos.compare_cont Eq 9007199254740991 m) eqn:C.
    + right. split; [|exact Heq]. symmetry. apply Pos.compare_eq. exact C.
    + exfalso. apply Pos.compare_lt_iff in C. apply Pos2Z.pos_lt_pos in C. lia.
    + left. reflexivity.
  - exfalso. lia.
  - left. reflexivity.
Qed.

Lemma finite_below_DBL_MAX (x : float) :
  Double.finite x = true ->
  (x <? Double.DBL_MAX)%float = true \/ x = Double.DBL_MAX.
Proof.
  intros Hx. unfold Double.finite in Hx.
  pose proof (Prim2SF_valid x) as Hv.
  rewrite FloatAxioms.ltb_spec, Prim2SF_DBL_MAX.
  destruct (Prim2SF x) as [s|s| |s m e] eqn:E; try discriminate.
  - left. reflexivity.
  - apply top_binade_mantissa in Hv as [He Hm].
    destruct s; [left; reflexivity|].
    destruct (SFltb_top m e He Hm) as [Hlt|[-> ->]]; [left; exact Hlt|right].
    apply Prim2SF_inj. rewrite E. symmetry. exact Prim2SF_DBL_MAX.
Qed.

Lemma finite_above_neg_DBL_MAX (x : float) :
  Double.finite x = true ->
  (- Double.DBL_MAX <? x)%float = true \/ x = (- Double.DBL_MAX)%float.
Proof.
  intros Hx. unfold Double.finite in Hx.
  pose proof (Prim2SF_valid x) as Hv.
  rewrite FloatAxioms.ltb_spec, Prim2SF_neg_DBL_MAX.
  destruct (Prim2SF x) as [s|s| |s m e] eqn:E; try discriminate.
  - left. reflexivity.
  - apply top_binade_mantissa in Hv as [He Hm].
    destruct s; [|left; reflexivity].
    destruct (SFltb_bottom m e He Hm) as [Hlt|[-> ->]]; [left; exact Hlt|right].
    apply Prim2SF_inj. rewrite E. symmetry. exact Prim2SF_neg_DBL_MAX.
Qed.

(* ================================================================== *)
(** ** Bounds checking *)

Lemma checkLogicalCoords_in_bounds (p : EclipseGridParser)
    (nx ny nz i j k : Z) (t : trace) :
  in_bounds nx ny nz i j k ->
  checkLogicalCoords (inspector_of p nx ny nz) i j k t = (inr tt, t).
Proof.
  intros (Hi & Hj & Hk). open_query.
  destruct (i <? 0) eqn:E1; [lia|]. destruct (i >=? nx) eqn:E2; [lia|].
  destruct (j <? 0) eqn:E3; [lia|]. destruct (j >=? ny) eqn:E4; [lia|].
  destruct (k <? 0) eqn:E5; [lia|]. destruct (k >=? nz) eqn:E6; [lia|].
  reflexivity.
Qed.

Lemma checkLogicalCoords_out_of_bounds (p : EclipseGridParser)
    (nx ny nz i j k : Z) (t : trace) :
  ~ in_bounds nx ny nz i j k ->
  exists e, names_first_offending_axis nx ny nz i j k e
            /\ checkLogicalCoords (inspector_of p nx ny nz) i j k t
               = (inl e, t).
Proof.
  intros Hout. unfold names_first_offending_axis, in_bounds in *. open_query.
  destruct ((i <? 0) || (i >=? nx)) eqn:E1.
  { eexists; split; [left; split; [reflexivity|]|reflexivity].
    apply orb_true_iff in E1 as [E|E]; lia. }
  apply orb_false_iff in E1 as [E1 E1'].
  destruct ((j <? 0) || (j >=? ny)) eqn:E2.
  { eexists; split; [right; left; split; [reflexivity|]|reflexivity].
    apply orb_true_iff in E2 as [E|E]; lia. }
  apply orb_false_iff in E2 as [E2 E2'].
  destruct ((k <? 0) || (k >=? nz)) eqn:E3.
  { eexists; split; [right; right; split; [reflexivity|]|reflexivity].
    apply orb_true_iff in E3 as [E|E]; lia. }
  apply orb_false_iff in E3 as [E3 E3'].
  exfalso. apply Hout. lia.
Qed.

(** C2 (as amended): for every coordinate triple with a component below 0 or
    not below the grid dimension of its axis, cellVolume and cellDips fail
    with the out-of-bounds error that names the first offending axis in the
    order first, second, third (every axis named before it is inside the
    grid), and have fetched neither COORD nor ZCORN: the trace of fetches is
    unchanged. *)
Theorem volume_and_dips_reject_out_of_bounds (p : EclipseGridParser)
    (nx ny nz i j k : Z) (t : trace) :
  ~ in_bounds nx ny nz i j k ->
  rejects_out_of_bounds cellVolumeVerticalPillars p nx ny nz i j k t
  /\ rejects_out_of_bounds cellDips p nx ny nz i j k t.
Proof.
  intros Hout.
  destruct (checkLogicalCoords_out_of_bounds p nx ny nz i j k t Hout)
    as (e & He & Hrun).
  split; exists e; (split; [exact He|]).
  - unfold cellVolumeVerticalPillars, bind. now rewrite Hrun.
  - unfold cellDips, bind. now rewrite Hrun.
Qed.

Lemma volume_and_dips_reject_out_of_bounds_witness :
  rejects_out_of_bounds cellVolumeVerticalPillars
    (Samples.grid_parser (1, 2, 1) [] (Samples.ramp 16 0)) 1 2 1 2 0 0 []
  /\ rejects_out_of_bounds cellDips
       (Samples.grid_parser (1, 2, 1) [] (Samples.ramp 16 0)) 1 2 1 2 0 0 [].
Proof.
  apply (volume_and_dips_reject_out_of_bounds
           (Samples.grid_parser (1, 2, 1) [] (Samples.ramp 16 0))
           1 2 1 2 0 0 []).
  unfold in_bounds. lia.
Defined.

(** C2 (as stated) fails for cellCorners: on the 1 x 2 x 1 grid the first
    coordinate 2 is out of bounds, yet cellZvals fetches ZCORN and returns the
    eight depths at offsets 4..7 and 12..15 (those of cell (0, 1, 0)). *)
Lemma cellZvals_accepts_out_of_bounds :
  ~ in_bounds 1 2 1 2 0 0
  /\ run (cellZvals (inspector_of
                       (Samples.grid_parser (1, 2, 1) [] (Samples.ramp 16 0))
                       1 2 1) 2 0 0)
     = (inr [4; 5; 6; 7; 12; 13; 14; 15]%float, ["ZCORN"])
  /\ ~ rejects_out_of_bounds cellZvals
         (Samples.grid_parser (1, 2, 1) [] (Samples.ramp 16 0))
         1 2 1 2 0 0 [].
Proof.
  assert (E : run (cellZvals (inspector_of
                       (Samples.grid_parser (1, 2, 1) [] (Samples.ramp 16 0))
                       1 2 1) 2 0 0)
     = (inr [4; 5; 6; 7; 12; 13; 14; 15]%float, ["ZCORN"]))
    by (vm_compute; reflexivity).
  split; [unfold in_bounds; lia|]. split; [exact E|].
  intros (e & _ & Hrun). unfold run in E. rewrite E in Hrun. discriminate.
Qed.

(* ================================================================== *)
(** ** Corner depths: the claim *)

(** C6: for every in-bounds cell (i, j, k) and a ZCORN array of the right
    size 8*nx*ny*nz, cellCorners returns exactly the eight ZCORN values at
    offsets 0, stride_i, stride_j, stride_j+stride_i, stride_k,
    stride_k+stride_i, stride_k+stride_j, stride_k+stride_j+stride_i from the
    base offset ix = 2*(i*stride_i + j*stride_j + k*stride_k), where
    stride_i = 1, stride_j = 2*nx, stride_k = 4*nx*ny, in the corner order
    LLL, HLL, LHL, HHL, LLH, HLH, LHH, HHH. *)
Theorem cellZvals_corner_offsets (p : EclipseGridParser) (nx ny nz : Z)
    (z : list float) (i j k : Z) (t : trace) :
  floating_field_map p "ZCORN" = Some z ->
  Z.of_nat (List.length z) = 8 * nx * ny * nz ->
  8 * nx * ny * nz <= Int.max_int ->
  in_bounds nx ny nz i j k ->
  let stride_i := 1 in
  let stride_j := 2 * nx in
  let stride_k := 4 * nx * ny in
  let ix := 2 * (i * stride_i + j * stride_j + k * stride_k) in
  exists LLL HLL LHL HHL LLH HLH LHH HHH : float,
    fst (cellZvals (inspector_of p nx ny nz) i j k t)
    = inr [LLL; HLL; LHL; HHL; LLH; HLH; LHH; HHH]
    /\ nth_error z (Z.to_nat ix) = Some LLL
    /\ nth_error z (Z.to_nat (ix + stride_i)) = Some HLL
    /\ nth_error z (Z.to_nat (ix + stride_j)) = Some LHL
    /\ nth_error z (Z.to_nat (ix + (stride_j + stride_i))) = Some HHL
    /\ nth_error z (Z.to_nat (ix + stride_k)) = Some LLH
    /\ nth_error z (Z.to_nat (ix + (stride_k + stride_i))) = Some HLH
    /\ nth_error z (Z.to_nat (ix + (stride_k + stride_j))) = Some LHH
    /\ nth_error z (Z.to_nat (ix + (stride_k + stride_j + stride_i)))
       = Some HHH.
Proof.
  intros Hz Hlen Hfit (Hi & Hj & Hk) stride_i stride_j stride_k ix.
  pose proof (corner_offsets_in_range nx ny nz i j k Hi Hj Hk) as Hoff.
  rewrite <- Hlen in Hoff.
  rewrite (cellZvals_run p nx ny nz z i j k t Hz Hlen Hfit Hi Hj Hk).
  unfold Layout.corners. cbn [fst map Layout.corner_offsets].
  do 8 eexists. split; [reflexivity|].
  unfold Layout.corner_offsets in Hoff.
  fold stride_i stride_j stride_k in Hoff. unfold elt.
  repeat match goal with
         | H : Forall _ (_ :: _) |- _ =>
             apply Forall_cons_iff in H; destruct H as [? H]
         end.
  change (Layout.base nx ny i j k) with ix in *.
  change Layout.stride_i with stride_i in *.
  change (Layout.stride_j nx) with stride_j in *.
  change (Layout.stride_k nx ny) with stride_k in *.
  rewrite (Z.add_0_r ix) in *.
  repeat split; apply vec_at_nth_error; assumption.
Qed.

Lemma cellZvals_corner_offsets_witness :
  exists LLL HLL LHL HHL LLH HLH LHH HHH : float,
    fst (cellZvals (inspector_of
                      (Samples.grid_parser (1, 2, 1) [] (Samples.ramp 16 0))
                      1 2 1) 0 1 0 [])
    = inr [LLL; HLL; LHL; HHL; LLH; HLH; LHH; HHH]
    /\ nth_error (Samples.ramp 16 0) 4 = Some LLL
    /\ nth_error (Samples.ramp 16 0) 5 = Some HLL
    /\ nth_error (Samples.ramp 16 0) 6 = Some LHL
    /\ nth_error (Samples.ramp 16 0) 7 = Some HHL
    /\ nth_error (Samples.ramp 16 0) 12 = Some LLH
    /\ nth_error (Samples.ramp 16 0) 13 = Some HLH
    /\ nth_error (Samples.ramp 16 0) 14 = Some LHH
    /\ nth_error (Samples.ramp 16 0) 15 = Some HHH.
Proof.
  apply (cellZvals_corner_offsets
           (Samples.grid_parser (1, 2, 1) [] (Samples.ramp 16 0)) 1 2 1
           (Samples.ramp 16 0) 0 1 0 []).
  - reflexivity.
  - reflexivity.
  - unfold Int.max_int. lia.
  - unfold in_bounds. lia.
Defined.

(* ================================================================== *)
(** ** Construction *)

Lemma hasFields_coord_zcorn (p : EclipseGridParser) :
  hasFields p ["COORD"; "ZCORN"]
  = hasField p "COORD" && hasField p "ZCORN".
Proof. unfold hasFields. cbn [forallb]. now rewrite andb_true_r. Qed.

Lemma hasField_specgrid (p : EclipseGridParser) (s : SPECGRID) :
  specgrid_field p = Some s -> hasField p "SPECGRID" = true.
Proof.
  intros H. unfold hasField. rewrite H. cbn. now rewrite !orb_true_r.
Qed.

Lemma hasField_dimens (p : EclipseGridParser) (dim : list Z) :
  integer_field_map p "DIMENS" = Some dim -> hasField p "DIMENS" = true.
Proof. intros H. unfold hasField. now rewrite H. Qed.

(** With COORD and ZCORN present, a SPECGRID record decides the size, whether
    or not DIMENS is there. *)
Lemma constructor_from_specgrid (p : EclipseGridParser) (s : SPECGRID)
    (t : trace) :
  hasField p "COORD" = true -> hasField p "ZCORN" = true ->
  specgrid_field p = Some s ->
  EclipseGridInspector p t
  = (inr {| parser_ := p; logical_gridsize_ := int3_of (dimensions s) |},
     (t ++ ["SPECGRID"])%list).
Proof.
  intros Hc Hz Hs. unfold EclipseGridInspector.
  rewrite hasFields_coord_zcorn, Hc, Hz, (hasField_specgrid p s Hs).
  cbn [andb negb]. unfold bind, getSPECGRID. rewrite Hs.
  unfold int3_of. now destruct (dimensions s) as [[d0 d1] d2].
Qed.

(** Without SPECGRID, the first three integers of DIMENS are the size. *)
Lemma constructor_from_dimens (p : EclipseGridParser) (d0 d1 d2 : Z)
    (rest : list Z) (t : trace) :
  hasField p "COORD" = true -> hasField p "ZCORN" = true ->
  hasField p "SPECGRID" = false ->
  integer_field_map p "DIMENS" = Some (d0 :: d1 :: d2 :: rest) ->
  EclipseGridInspector p t
  = (inr {| parser_ := p; logical_gridsize_ := mk_int3 d0 d1 d2 |},
     (t ++ ["DIMENS"])%list).
Proof.
  intros Hc Hz Hs Hd. unfold EclipseGridInspector.
  rewrite hasFields_coord_zcorn, Hc, Hz, Hs, (hasField_dimens p _ Hd).
  cbn [andb negb]. unfold bind, getIntegerValue. now rewrite Hd.
Qed.

Lemma constructor_configuration_error (p : EclipseGridParser) (t : trace) :
  configuration_error_of (EclipseGridInspector p t)
  <-> (hasField p "COORD" = false \/ hasField p "ZCORN" = false
       \/ (hasField p "SPECGRID" = false /\ hasField p "DIMENS" = false)).
Proof.
  unfold configuration_error_of, EclipseGridInspector.
  rewrite hasFields_coord_zcorn.
  destruct (hasField p "COORD"), (hasField p "ZCORN"); cbn [andb negb];
    try (split; [intros _; tauto | intros _; eexists; reflexivity]).
  destruct (hasField p "SPECGRID").
  - split; [|intros [H|[H|[H _]]]; discriminate].
    intros [msg H]. unfold bind, getSPECGRID in H.
    destruct (specgrid_field p) as [s|]; [|discriminate].
    now destruct (dimensions s) as [[d0 d1] d2].
  - destruct (hasField p "DIMENS").
    + split; [|intros [H|[H|[_ H]]]; discriminate].
      intros [msg H]. unfold bind, getIntegerValue, vec_at, ret, throw in H.
      destruct (integer_field_map p "DIMENS") as [dim|]; [|discriminate].
      cbn in H. destruct dim as [|d0 [|d1 [|d2 rest]]]; discriminate.
    + split; [intros _; tauto | intros _; eexists; reflexivity].
Qed.

(** C8 (as amended): construction fails with a configuration error if and
    only if COORD or ZCORN is absent, or both SPECGRID and DIMENS are absent;
    when SPECGRID is present, with or without DIMENS, the grid size is taken
    from SPECGRID's 3-dimension field; when SPECGRID is absent and DIMENS is
    present, from the DIMENS integer triple. *)
Theorem constructor_prefers_specgrid (p : EclipseGridParser) (t : trace) :
  (configuration_error_of (EclipseGridInspector p t)
   <-> (hasField p "COORD" = false \/ hasField p "ZCORN" = false
        \/ (hasField p "SPECGRID" = false /\ hasField p "DIMENS" = false)))
  /\ (forall s,
        hasField p "COORD" = true -> hasField p "ZCORN" = true ->
        specgrid_field p = Some s ->
        fst (EclipseGridInspector p t)
        = inr {| parser_ := p;
                 logical_gridsize_ := int3_of (dimensions s) |})
  /\ (forall d0 d1 d2 rest,
        hasField p "COORD" = true -> hasField p "ZCORN" = true ->
        hasField p "SPECGRID" = false ->
        integer_field_map p "DIMENS" = Some (d0 :: d1 :: d2 :: rest) ->
        fst (EclipseGridInspector p t)
        = inr {| parser_ := p; logical_gridsize_ := mk_int3 d0 d1 d2 |}).
Proof.
  split; [apply constructor_configuration_error|]. split.
  - intros s Hc Hz Hs. now rewrite (constructor_from_specgrid p s t Hc Hz Hs).
  - intros d0 d1 d2 rest Hc Hz Hs Hd.
    now rewrite (constructor_from_dimens p d0 d1 d2 rest t Hc Hz Hs Hd).
Qed.

Lemma constructor_prefers_specgrid_witness :
  fst (EclipseGridInspector Samples.specgrid_only [])
  = inr {| parser_ := Samples.specgrid_only;
           logical_gridsize_ := mk_int3 2 3 4 |}
  /\ fst (EclipseGridInspector Samples.dimens_only [])
     = inr {| parser_ := Samples.dimens_only;
              logical_gridsize_ := mk_int3 5 6 7 |}.
Proof.
  split.
  - exact (proj1 (proj2 (constructor_prefers_specgrid Samples.specgrid_only []))
             {| dimensions := (2, 3, 4) |} eq_refl eq_refl eq_refl).
  - exact (proj2 (proj2 (constructor_prefers_specgrid Samples.dimens_only []))
             5 6 7 [] eq_refl eq_refl eq_refl eq_refl).
Defined.

(** C8 (as stated) fails: with COORD, ZCORN and SPECGRID but no DIMENS, the
    two are not both present, so the size should come from the DIMENS triple;
    there is none, and the size is SPECGRID's (2, 3, 4). *)
Lemma specgrid_only_size_not_from_dimens :
  hasField Samples.specgrid_only "DIMENS" = false
  /\ exists g,
       fst (run (EclipseGridInspector Samples.specgrid_only)) = inr g
       /\ logical_gridsize_ g = mk_int3 2 3 4
       /\ ~ size_source_as_claimed Samples.specgrid_only (logical_gridsize_ g).
Proof.
  split; [reflexivity|]. eexists. split; [reflexivity|]. split; [reflexivity|].
  unfold size_source_as_claimed.
  replace (hasField Samples.specgrid_only "SPECGRID"
           && hasField Samples.specgrid_only "DIMENS") with false
    by reflexivity.
  intros (d0 & d1 & d2 & rest & H & _). discriminate H.
Qed.

(** C9 (as amended): construction does not look at the sign of the
    dimensions.  With COORD and ZCORN present, a triple given by SPECGRID, or
    by DIMENS when SPECGRID is absent, is stored unchanged, so the stored
    size has three positive components exactly when the triple has. *)
Theorem constructor_stores_any_dimensions (p : EclipseGridParser)
    (d0 d1 d2 : Z) (t : trace) :
  hasField p "COORD" = true -> hasField p "ZCORN" = true ->
  (specgrid_field p = Some {| dimensions := (d0, d1, d2) |}
   \/ (hasField p "SPECGRID" = false
       /\ exists rest,
            integer_field_map p "DIMENS" = Some (d0 :: d1 :: d2 :: rest))) ->
  exists g,
    fst (EclipseGridInspector p t) = inr g
    /\ gridSize g = mk_int3 d0 d1 d2
    /\ (positive_size (gridSize g) <-> 0 < d0 /\ 0 < d1 /\ 0 < d2).
Proof.
  intros Hc Hz [Hs|(Hs & rest & Hd)].
  - rewrite (constructor_from_specgrid p _ t Hc Hz Hs).
    eexists. split; [reflexivity|]. split; [reflexivity|].
    unfold positive_size. cbn. tauto.
  - rewrite (constructor_from_dimens p d0 d1 d2 rest t Hc Hz Hs Hd).
    eexists. split; [reflexivity|]. split; [reflexivity|].
    unfold positive_size. cbn. tauto.
Qed.

Lemma constructor_stores_any_dimensions_witness :
  exists g,
    fst (EclipseGridInspector Samples.degenerate []) = inr g
    /\ gridSize g = mk_int3 0 (-1) 5
    /\ (positive_size (gridSize g) <-> 0 < 0 /\ 0 < -1 /\ 0 < 5).
Proof.
  apply (constructor_stores_any_dimensions Samples.degenerate 0 (-1) 5 []).
  - reflexivity.
  - reflexivity.
  - left. reflexivity.
Defined.

(** C9 (as stated) fails: a SPECGRID triple (0, -1, 5) is accepted and stored,
    and the stored size is not positive. *)
Lemma degenerate_size_accepted :
  exists g,
    fst (run (EclipseGridInspector Samples.degenerate)) = inr g
    /\ logical_gridsize_ g = mk_int3 0 (-1) 5
    /\ ~ positive_size (logical_gridsize_ g).
Proof.
  eexists. split; [reflexivity|]. split; [reflexivity|].
  unfold positive_size. cbn. lia.
Qed.

(* ================================================================== *)
(** ** Linear index to logical coordinates *)

(** C1, at the failing input: on the 2 x 3 x 1 grid the linear index 1 has
    horizon-local index 2, whose remainder modulo nx = 2 is zero; the code
    then takes ny = 3 (not nx = 2) for the 1-based i and returns (2, 0, 0),
    which is outside [0,2) x [0,3) x [0,1).  On the 3 x 2 x 1 grid the same
    slip sends the indices 1 and 2 to one triple, so the map is not
    injective. *)
Theorem cellIdxToLogicalCoords_zero_remainder_takes_ny
    (p : EclipseGridParser) :
  run (cellIdxToLogicalCoords (inspector_of p 2 3 1) 1)
  = (inr (mk_int3 2 0 0), [])
  /\ ~ in_bounds 2 3 1 2 0 0
  /\ run (cellIdxToLogicalCoords (inspector_of p 3 2 1) 1)
     = (inr (mk_int3 1 0 0), [])
  /\ run (cellIdxToLogicalCoords (inspector_of p 3 2 1) 2)
     = (inr (mk_int3 1 0 0), []).
Proof.
  split; [vm_compute; reflexivity|].
  split; [unfold in_bounds; lia|].
  split; vm_compute; reflexivity.
Qed.

(** The whole table of the 2 x 3 x 1 grid: three of its six triples have
    i = 2. *)
Lemma logical_coords_table_2_3_1 (p : EclipseGridParser) :
  logical_coords_table (inspector_of p 2 3 1) 6
  = [ inr (mk_int3 0 0 0); inr (mk_int3 2 0 0); inr (mk_int3 0 1 0);
      inr (mk_int3 2 0 0); inr (mk_int3 0 2 0); inr (mk_int3 2 1 0) ].
Proof. vm_compute. reflexivity. Qed.

(** Where nx = ny the two constants agree, and the table is the expected
    enumeration with i fastest, then j, then k. *)
Lemma logical_coords_table_2_2_2 (p : EclipseGridParser) :
  logical_coords_table (inspector_of p 2 2 2) 8
  = [ inr (mk_int3 0 0 0); inr (mk_int3 1 0 0); inr (mk_int3 0 1 0);
      inr (mk_int3 1 1 0); inr (mk_int3 0 0 1); inr (mk_int3 1 0 1);
      inr (mk_int3 0 1 1); inr (mk_int3 1 1 1) ].
Proof. vm_compute. reflexivity. Qed.

(* ================================================================== *)
(** ** Size validation *)

Lemma zcorn_size_test (nx ny nz : Z) (z : list float) :
  grid_fits nx ny nz -> Z.of_nat (List.length z) <= Int.max_int ->
  ((8 * (nx * ny * nz))%int =? Int.of_size (List.length z))
  = (8 * nx * ny * nz =? Z.of_nat (List.length z)).
Proof.
  intros (Hx & Hy & Hz & Hc & Hp) Hlen.
  now rewrite num_cells_exact, of_size_id.
Qed.

Lemma coord_size_test (nx ny nz : Z) (coord : list float) :
  grid_fits nx ny nz -> Z.of_nat (List.length coord) <= Int.max_int ->
  ((6 * ((nx + 1) * (ny + 1)))%int =? Int.of_size (List.length coord))
  = (6 * (nx + 1) * (ny + 1) =? Z.of_nat (List.length coord)).
Proof.
  intros (Hx & Hy & Hz & Hc & Hp) Hlen.
  now rewrite num_pillars_exact, of_size_id.
Qed.

Lemma cellZvals_wrong_size (p : EclipseGridParser) (nx ny nz : Z)
    (z : list float) (i j k : Z) (t : trace) :
  grid_fits nx ny nz ->
  floating_field_map p "ZCORN" = Some z ->
  Z.of_nat (List.length z) <= Int.max_int ->
  Z.of_nat (List.length z) <> 8 * nx * ny * nz ->
  cellZvals (inspector_of p nx ny nz) i j k t
  = (inl wrong_zcorn_size, (t ++ ["ZCORN"])%list).
Proof.
  intros Hfit Hz Hlen Hne. open_query. rewrite Hz.
  rewrite (zcorn_size_test nx ny nz z Hfit Hlen).
  destruct (Z.eqb_spec (8 * nx * ny * nz) (Z.of_nat (List.length z)));
    [congruence|reflexivity].
Qed.

Lemma volume_dips_wrong_coord_size (p : EclipseGridParser) (nx ny nz : Z)
    (coord : list float) (i j k : Z) (t : trace) :
  grid_fits nx ny nz ->
  floating_field_map p "COORD" = Some coord ->
  Z.of_nat (List.length coord) <= Int.max_int ->
  in_bounds nx ny nz i j k ->
  Z.of_nat (List.length coord) <> 6 * (nx + 1) * (ny + 1) ->
  cellVolumeVerticalPillars (inspector_of p nx ny nz) i j k t
  = (inl wrong_coord_size, (t ++ ["COORD"])%list)
  /\ cellDips (inspector_of p nx ny nz) i j k t
     = (inl wrong_coord_size, (t ++ ["COORD"])%list).
Proof.
  intros Hfit Hc Hlen Hin Hne.
  pose proof (checkLogicalCoords_in_bounds p nx ny nz i j k t Hin) as Hchk.
  split.
  - unfold cellVolumeVerticalPillars, bind. rewrite Hchk.
    open_query. rewrite Hc.
    rewrite (coord_size_test nx ny nz coord Hfit Hlen).
    destruct (Z.eqb_spec (6 * (nx + 1) * (ny + 1))
                         (Z.of_nat (List.length coord)));
      [congruence|reflexivity].
  - unfold cellDips, bind. rewrite Hchk.
    open_query. rewrite Hc.
    rewrite (coord_size_test nx ny nz coord Hfit Hlen).
    destruct (Z.eqb_spec (6 * (nx + 1) * (ny + 1))
                         (Z.of_nat (List.length coord)));
      [congruence|reflexivity].
Qed.

Lemma volume_dips_wrong_zcorn_size (p : EclipseGridParser) (nx ny nz : Z)
    (coord z : list float) (i j k : Z) (t : trace) :
  grid_fits nx ny nz ->
  floating_field_map p "COORD" = Some coord ->
  floating_field_map p "ZCORN" = Some z ->
  Z.of_nat (List.length z) <= Int.max_int ->
  in_bounds nx ny nz i j k ->
  Z.of_nat (List.length coord) = 6 * (nx + 1) * (ny + 1) ->
  Z.of_nat (List.length z) <> 8 * nx * ny * nz ->
  cellVolumeVerticalPillars (inspector_of p nx ny nz) i j k t
  = (inl wrong_zcorn_size, (t ++ ["COORD"] ++ ["ZCORN"])%list)
  /\ cellDips (inspector_of p nx ny nz) i j k t
     = (inl wrong_zcorn_size, (t ++ ["COORD"] ++ ["ZCORN"])%list).
Proof.
  intros Hfit Hc Hz Hlen Hin Hcs Hne.
  pose proof (checkLogicalCoords_in_bounds p nx ny nz i j k t Hin) as Hchk.
  assert (Hclen : Z.of_nat (List.length coord) <= Int.max_int)
    by (destruct Hfit as (_ & _ & _ & _ & Hp); lia).
  rewrite app_assoc.
  split.
  - unfold cellVolumeVerticalPillars, bind. rewrite Hchk.
    open_query. rewrite Hc.
    rewrite (coord_size_test nx ny nz coord Hfit Hclen), Hcs, Z.eqb_refl.
    cbv beta iota delta [negb]. rewrite Hz.
    rewrite (zcorn_size_test nx ny nz z Hfit Hlen).
    destruct (Z.eqb_spec (8 * nx * ny * nz) (Z.of_nat (List.length z)));
      [congruence|reflexivity].
  - unfold cellDips, bind. rewrite Hchk.
    open_query. rewrite Hc.
    rewrite (coord_size_test nx ny nz coord Hfit Hclen), Hcs, Z.eqb_refl.
    cbv beta iota delta [negb]. rewrite Hz.
    rewrite (zcorn_size_test nx ny nz z Hfit Hlen).
    destruct (Z.eqb_spec (8 * nx * ny * nz) (Z.of_nat (List.length z)));
      [congruence|reflexivity].
Qed.

(** C4 (as amended): on every call, from whatever trace, cellVolume and
    cellDips at in-bounds coordinates fetch COORD and check that its length
    is 6*(nx+1)*(ny+1), then fetch ZCORN and check that its length is
    8*nx*ny*nz, and cellCorners fetches ZCORN and checks its length; each
    fails with the size error of the first array whose length disagrees.  In
    particular a ZCORN array one element short makes every corner query fail
    with the ZCORN size error, and every volume or dip query at in-bounds
    coordinates fail with a size error: that of COORD when the length of
    COORD disagrees as well, that of ZCORN otherwise.  The grid has
    nx, ny, nz > 0 with 8*nx*ny*nz and 6*(nx+1)*(ny+1) at most INT_MAX, and
    the two arrays have at most INT_MAX values. *)
Theorem queries_validate_sizes (p : EclipseGridParser) (nx ny nz : Z)
    (coord z : list float) (t : trace) :
  grid_fits nx ny nz ->
  floating_field_map p "COORD" = Some coord ->
  floating_field_map p "ZCORN" = Some z ->
  Z.of_nat (List.length coord) <= Int.max_int ->
  Z.of_nat (List.length z) <= Int.max_int ->
  (forall i j k,
      Z.of_nat (List.length z) <> 8 * nx * ny * nz ->
      fst (cellZvals (inspector_of p nx ny nz) i j k t) = inl wrong_zcorn_size)
  /\ (forall i j k,
        in_bounds nx ny nz i j k ->
        Z.of_nat (List.length coord) <> 6 * (nx + 1) * (ny + 1) ->
        fst (cellVolumeVerticalPillars (inspector_of p nx ny nz) i j k t)
        = inl wrong_coord_size
        /\ fst (cellDips (inspector_of p nx ny nz) i j k t)
           = inl wrong_coord_size)
  /\ (forall i j k,
        in_bounds nx ny nz i j k ->
        Z.of_nat (List.length coord) = 6 * (nx + 1) * (ny + 1) ->
        Z.of_nat (List.length z) <> 8 * nx * ny * nz ->
        fst (cellVolumeVerticalPillars (inspector_of p nx ny nz) i j k t)
        = inl wrong_zcorn_size
        /\ fst (cellDips (inspector_of p nx ny nz) i j k t)
           = inl wrong_zcorn_size)
  /\ (Z.of_nat (List.length z) = 8 * nx * ny * nz - 1 ->
      (forall i j k,
          fst (cellZvals (inspector_of p nx ny nz) i j k t)
          = inl wrong_zcorn_size)
      /\ (forall i j k,
            in_bounds nx ny nz i j k ->
            fst (cellVolumeVerticalPillars (inspector_of p nx ny nz) i j k t)
            = inl (first_size_error nx ny coord)
            /\ fst (cellDips (inspector_of p nx ny nz) i j k t)
               = inl (first_size_error nx ny coord))).
Proof.
  intros Hfit Hc Hz Hcl Hzl. split; [|split; [|split]].
  - intros i j k Hne.
    now rewrite (cellZvals_wrong_size p nx ny nz z i j k t Hfit Hz Hzl Hne).
  - intros i j k Hin Hne.
    destruct (volume_dips_wrong_coord_size p nx ny nz coord i j k t
                Hfit Hc Hcl Hin Hne) as [-> ->].
    now split.
  - intros i j k Hin Hcs Hne.
    destruct (volume_dips_wrong_zcorn_size p nx ny nz coord z i j k t
                Hfit Hc Hz Hzl Hin Hcs Hne) as [-> ->].
    now split.
  - intros Hshort.
    assert (Hne : Z.of_nat (List.length z) <> 8 * nx * ny * nz) by lia.
    split.
    + intros i j k.
      now rewrite (cellZvals_wrong_size p nx ny nz z i j k t Hfit Hz Hzl Hne).
    + intros i j k Hin. unfold first_size_error.
      destruct (Z.eqb_spec (Z.of_nat (List.length coord))
                           (6 * (nx + 1) * (ny + 1))) as [Hcs|Hcs].
      * destruct (volume_dips_wrong_zcorn_size p nx ny nz coord z i j k t
                    Hfit Hc Hz Hzl Hin Hcs Hne) as [-> ->].
        now split.
      * destruct (volume_dips_wrong_coord_size p nx ny nz coord i j k t
                    Hfit Hc Hcl Hin Hcs) as [-> ->].
        now split.
Qed.

Lemma queries_validate_sizes_witness :
  fst (cellZvals (inspector_of Samples.short_zcorn 1 1 1) 0 0 0 [])
  = inl wrong_zcorn_size
  /\ fst (cellVolumeVerticalPillars
            (inspector_of Samples.short_zcorn 1 1 1) 0 0 0 [])
     = inl wrong_zcorn_size
  /\ fst (cellDips (inspector_of Samples.short_zcorn 1 1 1) 0 0 0 [])
     = inl wrong_zcorn_size.
Proof.
  assert (Hfit : grid_fits 1 1 1)
    by (unfold grid_fits, Int.max_int; lia).
  assert (Hin : in_bounds 1 1 1 0 0 0) by (unfold in_bounds; lia).
  pose proof (queries_validate_sizes Samples.short_zcorn 1 1 1
                Samples.unit_square [0; 0; 0; 0; 1; 1; 1]%float []
                Hfit eq_refl eq_refl) as H.
  destruct H as (Hcorners & _ & Hzcorn & _).
  - unfold Int.max_int. cbn. lia.
  - unfold Int.max_int. cbn. lia.
  - split; [apply Hcorners; cbn; lia|].
    apply Hzcorn; [exact Hin|reflexivity|cbn; lia].
Defined.

(** C4 (as stated) fails twice.  getGridLimits validates no length: with a
    ZCORN of 7 values on the one-cell grid, which needs 8, it returns the
    limits.  And a volume query at an out-of-bounds coordinate fails on the
    coordinate before any array is fetched, whatever the ZCORN length: the
    error is not a size error. *)
Lemma getGridLimits_validates_no_size :
  Z.of_nat (List.length [0; 0; 0; 0; 1; 1; 1]%float) <> 8 * 1 * 1 * 1
  /\ run (getGridLimits (inspector_of Samples.short_zcorn 1 1 1))
     = (inr [0; 1; 0; 1; 0; 1]%float, ["COORD"; "ZCORN"])
  /\ run (cellVolumeVerticalPillars
            (inspector_of Samples.short_zcorn 1 1 1) (-1) 0 0)
     = (inl (runtime_error "First coordinate out of bounds"), []).
Proof.
  split; [cbn; lia|]. split; vm_compute; reflexivity.
Qed.

(* ================================================================== *)
(** ** Volume and dips *)

Lemma cellVolumeVerticalPillars_run (p : EclipseGridParser) (nx ny nz : Z)
    (coord z : list float) (i j k : Z) (t : trace) :
  grid_fits nx ny nz -> arrays_sized p nx ny nz coord z ->
  in_bounds nx ny nz i j k ->
  cellVolumeVerticalPillars (inspector_of p nx ny nz) i j k t
  = (inr (Geometry.average_height (Layout.corners nx ny z i j k)
          * Geometry.signed_area
              (Geometry.p0 nx coord i j) (Geometry.p1 nx coord i j)
              (Geometry.p2 nx coord i j) (Geometry.p3 nx coord i j))%float,
     (t ++ ["COORD"] ++ ["ZCORN"])%list).
Proof.
  intros Hfit (Hc & Hz & Hcl & Hzl) Hin.
  pose proof Hfit as (Hx & Hy & Hzp & Hcf & Hpf).
  pose proof Hin as (Hi & Hj & Hk).
  pose proof (cell_products nx ny nz i j k Hi Hj Hk) as (P1 & P2 & P3 & P4).
  pose proof (checkLogicalCoords_in_bounds p nx ny nz i j k t Hin) as Hchk.
  assert (Hcm : Z.of_nat (List.length coord) <= Int.max_int) by lia.
  assert (Hzm : Z.of_nat (List.length z) <= Int.max_int) by lia.
  rewrite app_assoc.
  unfold cellVolumeVerticalPillars, bind. rewrite Hchk.
  open_query. rewrite Hc.
  rewrite (coord_size_test nx ny nz coord Hfit Hcm), Hcl, Z.eqb_refl.
  cbv beta iota delta [negb]. rewrite Hz.
  rewrite (zcorn_size_test nx ny nz z Hfit Hzm), Hzl, Z.eqb_refl.
  cbv beta iota delta [negb].
  unwrap.
  repeat (rewrite (vec_at_in_range coord _ 0%float) by lia).
  repeat (rewrite (vec_at_in_range z _ 0%float) by lia).
  cbv beta iota zeta delta
    [Geometry.average_height Geometry.signed_area Geometry.diagonal_cross
     Geometry.p0 Geometry.p1 Geometry.p2 Geometry.p3 Geometry.near
     Geometry.pillar_top Layout.pillar_index
     Geometry.LLL Geometry.HLL Geometry.LHL Geometry.HHL
     Geometry.LLH Geometry.HLH Geometry.LHH Geometry.HHH
     Layout.corners Layout.corner_offsets Layout.base Layout.stride_i
     Layout.stride_j Layout.stride_k elt map nth fst snd fold_left].
  unfold ret. rewrite ?Z.add_assoc, ?Z.add_0_r. reflexivity.
Qed.

Lemma cellDips_run (p : EclipseGridParser) (nx ny nz : Z)
    (coord z : list float) (i j k : Z) (t : trace) :
  grid_fits nx ny nz -> arrays_sized p nx ny nz coord z ->
  in_bounds nx ny nz i j k ->
  cellDips (inspector_of p nx ny nz) i j k t
  = (inr (Geometry.x_dip (Geometry.cell_xlength nx coord i j)
                         (Layout.corners nx ny z i j k),
          Geometry.y_dip (Geometry.cell_ylength nx coord i j)
                         (Layout.corners nx ny z i j k)),
     (t ++ ["COORD"] ++ ["ZCORN"] ++ ["ZCORN"])%list).
Proof.
  intros Hfit (Hc & Hz & Hcl & Hzl) Hin.
  pose proof Hfit as (Hx & Hy & Hzp & Hcf & Hpf).
  pose proof Hin as (Hi & Hj & Hk).
  pose proof (cell_products nx ny nz i j k Hi Hj Hk) as (P1 & P2 & P3 & P4).
  pose proof (checkLogicalCoords_in_bounds p nx ny nz i j k t Hin) as Hchk.
  assert (Hcm : Z.of_nat (List.length coord) <= Int.max_int) by lia.
  assert (Hzm : Z.of_nat (List.length z) <= Int.max_int) by lia.
  rewrite !app_assoc.
  unfold cellDips, bind. rewrite Hchk.
  cbv beta iota zeta delta [getFloatingPointValue inspector_of parser_
                            logical_gridsize_ idx0 idx1 idx2].
  rewrite Hc.
  rewrite (coord_size_test nx ny nz coord Hfit Hcm), Hcl, Z.eqb_refl.
  cbv beta iota delta [negb]. rewrite Hz.
  rewrite (zcorn_size_test nx ny nz z Hfit Hzm), Hzl, Z.eqb_refl.
  cbv beta iota delta [negb].
  change {| parser_ := p; logical_gridsize_ := mk_int3 nx ny nz |}
    with (inspector_of p nx ny nz).
  rewrite (cellZvals_run p nx ny nz z i j k _ Hz Hzl Hcf Hi Hj Hk).
  unwrap.
  repeat (rewrite (vec_at_in_range coord _ 0%float) by lia).
  cbv beta iota zeta delta
    [Geometry.x_dip Geometry.y_dip Geometry.cell_xlength
     Geometry.cell_ylength
     Geometry.p0 Geometry.p1 Geometry.p2 Geometry.p3 Geometry.near
     Geometry.pillar_top Layout.pillar_index
     Geometry.LLL Geometry.HLL Geometry.LHL Geometry.HHL
     Geometry.LLH Geometry.HLH Geometry.LHH Geometry.HHH
     arr elt fst snd].
  unfold ret. rewrite ?Z.add_assoc, ?Z.add_0_r. reflexivity.
Qed.

(** C5 (as amended): for every in-bounds cell and correctly sized COORD and
    ZCORN, cellVolume is area * average_height, where area is half the 2-D
    cross product of the diagonals diag1 = p3 - p0, diag2 = p2 - p1 of the
    quadrilateral of the four pillar tops (0 = near, 1 = +x, 2 = +y,
    3 = +x+y), taken with its sign: no absolute value is applied.
    average_height is a quarter of the sum of the four depth differences
    LLL->LLH, HLL->HLH, LHL->LHH, HHL->HHH. *)
Theorem cellVolume_signed_area_times_height (p : EclipseGridParser)
    (nx ny nz : Z) (coord z : list float) (i j k : Z) (t : trace) :
  grid_fits nx ny nz -> arrays_sized p nx ny nz coord z ->
  in_bounds nx ny nz i j k ->
  fst (cellVolumeVerticalPillars (inspector_of p nx ny nz) i j k t)
  = inr (Geometry.signed_area
           (Geometry.p0 nx coord i j) (Geometry.p1 nx coord i j)
           (Geometry.p2 nx coord i j) (Geometry.p3 nx coord i j)
         * Geometry.average_height (Layout.corners nx ny z i j k))%float.
Proof.
  intros Hfit Hsz Hin.
  rewrite (cellVolumeVerticalPillars_run p nx ny nz coord z i j k t
             Hfit Hsz Hin).
  cbn [fst]. now rewrite fmul_comm.
Qed.

Lemma cellVolume_signed_area_times_height_witness :
  fst (cellVolumeVerticalPillars
         (inspector_of
            (Samples.grid_parser (1, 1, 1) Samples.mirrored_square
               Samples.unit_depths) 1 1 1) 0 0 0 [])
  = inr (Geometry.signed_area
           (Geometry.p0 1 Samples.mirrored_square 0 0)
           (Geometry.p1 1 Samples.mirrored_square 0 0)
           (Geometry.p2 1 Samples.mirrored_square 0 0)
           (Geometry.p3 1 Samples.mirrored_square 0 0)
         * Geometry.average_height
             (Layout.corners 1 1 Samples.unit_depths 0 0 0))%float.
Proof.
  apply (cellVolume_signed_area_times_height
           (Samples.grid_parser (1, 1, 1) Samples.mirrored_square
              Samples.unit_depths) 1 1 1 Samples.mirrored_square
           Samples.unit_depths 0 0 0 []).
  - unfold grid_fits, Int.max_int. lia.
  - unfold arrays_sized. repeat split; reflexivity.
  - unfold in_bounds. lia.
Defined.

(** C5 (as stated) fails: when COORD lists the pillars of the unit square
    right to left, the cross product of the diagonals is -2, the area factor
    is -1 and the volume of the cell of height 1 is -1; half the magnitude
    of the cross product is 1. *)
Lemma cellVolume_negative_area :
  run (cellVolumeVerticalPillars
         (inspector_of
            (Samples.grid_parser (1, 1, 1) Samples.mirrored_square
               Samples.unit_depths) 1 1 1) 0 0 0)
  = (inr (-1)%float, ["COORD"; "ZCORN"])
  /\ Geometry.signed_area
       (Geometry.p0 1 Samples.mirrored_square 0 0)
       (Geometry.p1 1 Samples.mirrored_square 0 0)
       (Geometry.p2 1 Samples.mirrored_square 0 0)
       (Geometry.p3 1 Samples.mirrored_square 0 0) = (-1)%float
  /\ (Geometry.magnitude_area
        (Geometry.p0 1 Samples.mirrored_square 0 0)
        (Geometry.p1 1 Samples.mirrored_square 0 0)
        (Geometry.p2 1 Samples.mirrored_square 0 0)
        (Geometry.p3 1 Samples.mirrored_square 0 0)
      * Geometry.average_height
          (Layout.corners 1 1 Samples.unit_depths 0 0 0))%float = 1%float
  /\ ((-1) <? 0)%float = true.
Proof. repeat split; vm_compute; reflexivity. Qed.

(** [Double.finite] is the library's [is_finite]. *)
Lemma Prim2SF_infinity : Prim2SF infinity = S754_infinity false.
Proof. vm_compute. reflexivity. Qed.

Lemma Prim2SF_zero : Prim2SF zero = S754_zero false.
Proof. vm_compute. reflexivity. Qed.

Lemma finite_is_finite (x : float) : Double.finite x = is_finite x.
Proof.
  unfold Double.finite, is_finite, is_nan, is_infinity.
  rewrite !FloatAxioms.eqb_spec, FloatAxioms.abs_spec, Prim2SF_infinity.
  unfold SFeqb.
  destruct (Prim2SF x) as [s|s| |s m e] eqn:E.
  - now destruct s.
  - now destruct s.
  - reflexivity.
  - rewrite SFcompare_refl by discriminate. reflexivity.
Qed.

Lemma not_nan_is_nan (x : float) :
  is_nan x = false -> Double.not_nan x = true.
Proof.
  unfold is_nan, Double.not_nan. rewrite FloatAxioms.eqb_spec. unfold SFeqb.
  now destruct (Prim2SF x).
Qed.

Lemma is_zero_spec (x : float) (s : bool) :
  Prim2SF x = S754_zero s -> is_zero x = true.
Proof.
  intros H. unfold is_zero.
  now rewrite FloatAxioms.eqb_spec, H, Prim2SF_zero.
Qed.

Lemma fsub_same (x : float) :
  degenerate_length (x - x)
  /\ (is_finite x = true -> is_zero (x - x) = true).
Proof.
  unfold degenerate_length. rewrite <- finite_is_finite. split.
  - rewrite FloatAxioms.sub_spec. unfold SF64sub, SFsub.
    destruct (Prim2SF x) as [s|s| |s m e].
    + left. now destruct s.
    + right. now destruct s.
    + now right.
    + left. rewrite Z.sub_diag. reflexivity.
  - intros H. exact (is_zero_spec _ _ (fsub_diag x H)).
Qed.

Lemma fdiv_degenerate (a d : float) :
  degenerate_length d -> Double.finite (a / d) = false.
Proof.
  intros [H|H]; [exact (fdiv_zero a d false H)|].
  unfold Double.finite. rewrite FloatAxioms.div_spec, H.
  unfold SF64div, SFdiv. now destruct (Prim2SF a).
Qed.

(** With such a length every rise is an infinity or a NaN, and so is their
    average. *)
Lemma x_dip_degenerate_length (xlength : float) (c : list float) :
  degenerate_length xlength ->
  is_finite (Geometry.x_dip xlength c) = false.
Proof.
  intros H. rewrite <- finite_is_finite. unfold Geometry.x_dip.
  apply fdiv4_not_finite.
  repeat apply fadd_not_finite; apply (fdiv_degenerate _ _ H).
Qed.

Lemma y_dip_degenerate_length (ylength : float) (c : list float) :
  degenerate_length ylength ->
  is_finite (Geometry.y_dip ylength c) = false.
Proof.
  intros H. rewrite <- finite_is_finite. unfold Geometry.y_dip.
  apply fdiv4_not_finite.
  repeat apply fadd_not_finite; apply (fdiv_degenerate _ _ H).
Qed.

(** C7: for every in-bounds cell, correctly sized COORD and ZCORN and nonzero
    pillar spacings, cellDips returns as x-dip the average over the four
    corner pairs differing only along x (LLL->HLL, LHL->HHL, LLH->HLH,
    LHH->HHH) of (z_high - z_low) / cell_xlength, and as y-dip the same
    average over the four pairs differing only along y, the two lengths
    being differences of top coordinates of the cell's adjacent pillars. *)
Theorem cellDips_average_rise_over_length (p : EclipseGridParser)
    (nx ny nz : Z) (coord z : list float) (i j k : Z) (t : trace) :
  grid_fits nx ny nz -> arrays_sized p nx ny nz coord z ->
  in_bounds nx ny nz i j k ->
  is_zero (Geometry.cell_xlength nx coord i j) = false ->
  is_zero (Geometry.cell_ylength nx coord i j) = false ->
  fst (cellDips (inspector_of p nx ny nz) i j k t)
  = inr (Geometry.x_dip (Geometry.cell_xlength nx coord i j)
                        (Layout.corners nx ny z i j k),
         Geometry.y_dip (Geometry.cell_ylength nx coord i j)
                        (Layout.corners nx ny z i j k)).
Proof.
  intros Hfit Hsz Hin _ _.
  now rewrite (cellDips_run p nx ny nz coord z i j k t Hfit Hsz Hin).
Qed.

Lemma cellDips_average_rise_over_length_witness :
  fst (cellDips
         (inspector_of
            (Samples.grid_parser (1, 1, 1) Samples.unit_square
               Samples.tilted_depths) 1 1 1) 0 0 0 [])
  = inr (Geometry.x_dip (Geometry.cell_xlength 1 Samples.unit_square 0 0)
           (Layout.corners 1 1 Samples.tilted_depths 0 0 0),
         Geometry.y_dip (Geometry.cell_ylength 1 Samples.unit_square 0 0)
           (Layout.corners 1 1 Samples.tilted_depths 0 0 0)).
Proof.
  apply (cellDips_average_rise_over_length
           (Samples.grid_parser (1, 1, 1) Samples.unit_square
              Samples.tilted_depths) 1 1 1 Samples.unit_square
           Samples.tilted_depths 0 0 0 []).
  - unfold grid_fits, Int.max_int. lia.
  - unfold arrays_sized. repeat split; reflexivity.
  - unfold in_bounds. lia.
  - vm_compute. reflexivity.
  - vm_compute. reflexivity.
Defined.

(** The dips of the tilted unit cell are 1 along x and 2 along y. *)
Lemma tilted_cell_dips :
  run (cellDips
         (inspector_of
            (Samples.grid_parser (1, 1, 1) Samples.unit_square
               Samples.tilted_depths) 1 1 1) 0 0 0)
  = (inr (1, 2)%float, ["COORD"; "ZCORN"; "ZCORN"]).
Proof. vm_compute. reflexivity. Qed.

(** C10: cellDips divides by cell_xlength and cell_ylength without testing
    them.  For an in-bounds cell and correctly sized arrays it raises no
    error; when the top of the +x neighbour pillar has the x of the near
    pillar's top, the x-dip returned is an infinity or a NaN, and when that x
    is a number cell_xlength is zero: the division is by zero.  The same
    holds along y.  Only nonzero pillar spacings keep the divisors away from
    zero. *)
Theorem cellDips_divides_by_unchecked_length (p : EclipseGridParser)
    (nx ny nz : Z) (coord z : list float) (i j k : Z) (t : trace) :
  grid_fits nx ny nz -> arrays_sized p nx ny nz coord z ->
  in_bounds nx ny nz i j k ->
  exists xdip ydip : float,
    fst (cellDips (inspector_of p nx ny nz) i j k t) = inr (xdip, ydip)
    /\ xdip = Geometry.x_dip (Geometry.cell_xlength nx coord i j)
                (Layout.corners nx ny z i j k)
    /\ ydip = Geometry.y_dip (Geometry.cell_ylength nx coord i j)
                (Layout.corners nx ny z i j k)
    /\ (fst (Geometry.p1 nx coord i j) = fst (Geometry.p0 nx coord i j) ->
        is_finite xdip = false
        /\ (is_finite (fst (Geometry.p0 nx coord i j)) = true ->
            is_zero (Geometry.cell_xlength nx coord i j) = true))
    /\ (snd (Geometry.p2 nx coord i j) = snd (Geometry.p0 nx coord i j) ->
        is_finite ydip = false
        /\ (is_finite (snd (Geometry.p0 nx coord i j)) = true ->
            is_zero (Geometry.cell_ylength nx coord i j) = true)).
Proof.
  intros Hfit Hsz Hin.
  rewrite (cellDips_run p nx ny nz coord z i j k t Hfit Hsz Hin).
  do 2 eexists. split; [reflexivity|]. split; [reflexivity|].
  split; [reflexivity|]. split.
  - intros Hsame. unfold Geometry.cell_xlength. rewrite Hsame.
    destruct (fsub_same (fst (Geometry.p0 nx coord i j))) as [Hdeg Hzero].
    split; [now apply x_dip_degenerate_length|exact Hzero].
  - intros Hsame. unfold Geometry.cell_ylength. rewrite Hsame.
    destruct (fsub_same (snd (Geometry.p0 nx coord i j))) as [Hdeg Hzero].
    split; [now apply y_dip_degenerate_length|exact Hzero].
Qed.

Lemma cellDips_divides_by_unchecked_length_witness :
  exists xdip ydip : float,
    fst (cellDips
           (inspector_of
              (Samples.grid_parser (1, 1, 1) Samples.collapsed_square
                 Samples.tilted_depths) 1 1 1) 0 0 0 [])
    = inr (xdip, ydip)
    /\ is_zero (Geometry.cell_xlength 1 Samples.collapsed_square 0 0) = true
    /\ is_finite xdip = false
    /\ is_zero (Geometry.cell_ylength 1 Samples.collapsed_square 0 0) = true
    /\ is_finite ydip = false.
Proof.
  destruct (cellDips_divides_by_unchecked_length
              (Samples.grid_parser (1, 1, 1) Samples.collapsed_square
                 Samples.tilted_depths) 1 1 1 Samples.collapsed_square
              Samples.tilted_depths 0 0 0 [])
    as (xdip & ydip & Hrun & _ & _ & Hx & Hy).
  - unfold grid_fits, Int.max_int. lia.
  - unfold arrays_sized. repeat split; reflexivity.
  - unfold in_bounds. lia.
  - exists xdip, ydip. split; [exact Hrun|].
    destruct (Hx eq_refl) as (Hxf & Hx0).
    destruct (Hy eq_refl) as (Hyf & Hy0).
    split; [exact (Hx0 eq_refl)|]. split; [exact Hxf|].
    split; [exact (Hy0 eq_refl)|exact Hyf].
Defined.

(** The dips of the cell on the collapsed square: both are +infinity. *)
Lemma collapsed_cell_dips :
  run (cellDips
         (inspector_of
            (Samples.grid_parser (1, 1, 1) Samples.collapsed_square
               Samples.tilted_depths) 1 1 1) 0 0 0)
  = (inr (infinity, infinity), ["COORD"; "ZCORN"; "ZCORN"]).
Proof. vm_compute. reflexivity. Qed.

(* ================================================================== *)
(** ** Grid limits *)

Import Extent.

(** A running minimum over values that are not NaN. *)
Lemma fold_min_step (l seen : list float) (acc : float) :
  is_min_of acc seen -> Double.not_nan acc = true ->
  Forall (fun x => Double.not_nan x = true) l ->
  is_min_of (fold_left min_step l acc) (seen ++ l).
Proof.
  revert seen acc. induction l as [|c l IH]; intros seen acc [Hin Hlow] Hacc Hl.
  - rewrite app_nil_r. now split.
  - apply Forall_cons_iff in Hl as [Hc Hl].
    cbn [fold_left].
    replace (seen ++ c :: l)%list with ((seen ++ [c]) ++ l)%list
      by (now rewrite <- app_assoc).
    unfold min_step at 2. destruct (c <? acc)%float eqn:E.
    + apply IH; [|exact Hc|exact Hl]. split.
      * apply in_or_app. right. now left.
      * intros x Hx. apply in_app_or in Hx as [Hx|[<-|[]]].
        -- apply (fleb_trans c acc x); [now apply fltb_fleb|now apply Hlow].
        -- now apply fleb_refl.
    + apply IH; [|exact Hacc|exact Hl]. split.
      * apply in_or_app. now left.
      * intros x Hx. apply in_app_or in Hx as [Hx|[<-|[]]].
        -- now apply Hlow.
        -- now apply not_fltb_fleb.
Qed.

Lemma fold_max_step (l seen : list float) (acc : float) :
  is_max_of acc seen -> Double.not_nan acc = true ->
  Forall (fun x => Double.not_nan x = true) l ->
  is_max_of (fold_left max_step l acc) (seen ++ l).
Proof.
  revert seen acc. induction l as [|c l IH]; intros seen acc [Hin Hup] Hacc Hl.
  - rewrite app_nil_r. now split.
  - apply Forall_cons_iff in Hl as [Hc Hl].
    cbn [fold_left].
    replace (seen ++ c :: l)%list with ((seen ++ [c]) ++ l)%list
      by (now rewrite <- app_assoc).
    unfold max_step at 2. destruct (acc <? c)%float eqn:E.
    + apply IH; [|exact Hc|exact Hl]. split.
      * apply in_or_app. right. now left.
      * intros x Hx. apply in_app_or in Hx as [Hx|[<-|[]]].
        -- apply (fleb_trans x acc c); [now apply Hup|now apply fltb_fleb].
        -- now apply fleb_refl.
    + apply IH; [|exact Hacc|exact Hl]. split.
      * apply in_or_app. now left.
      * intros x Hx. apply in_app_or in Hx as [Hx|[<-|[]]].
        -- now apply Hup.
        -- now apply not_fltb_fleb.
Qed.

Lemma singleton_min (c : float) :
  Double.not_nan c = true -> is_min_of c [c].
Proof.
  intros H. split; [now left|]. intros x [<-|[]]. now apply fleb_refl.
Qed.

Lemma singleton_max (c : float) :
  Double.not_nan c = true -> is_max_of c [c].
Proof.
  intros H. split; [now left|]. intros x [<-|[]]. now apply fleb_refl.
Qed.

(** [std::min_element] and [std::max_element] on a vector without NaN. *)
Lemma min_element_run (v : list float) (t : trace) :
  v <> [] -> Forall (fun x => Double.not_nan x = true) v ->
  exists m, min_element v t = (inr m, t) /\ is_min_of m v.
Proof.
  destruct v as [|x r]; [congruence|]. intros _ Hv.
  apply Forall_cons_iff in Hv as [Hx Hr].
  eexists. split; [reflexivity|].
  apply (fold_min_step r [x] x (singleton_min x Hx) Hx Hr).
Qed.

Lemma max_element_run (v : list float) (t : trace) :
  v <> [] -> Forall (fun x => Double.not_nan x = true) v ->
  exists m, max_element v t = (inr m, t) /\ is_max_of m v.
Proof.
  destruct v as [|x r]; [congruence|]. intros _ Hv.
  apply Forall_cons_iff in Hv as [Hx Hr].
  eexists. split; [reflexivity|].
  apply (fold_max_step r [x] x (singleton_max x Hx) Hx Hr).
Qed.

(** From the start values +DBL_MAX and -DBL_MAX the first number scanned
    becomes the running limit. *)
Lemma min_step_DBL_MAX (c : float) :
  Double.finite c = true -> min_step Double.DBL_MAX c = c.
Proof.
  intros H. unfold min_step.
  destruct (finite_below_DBL_MAX c H) as [->| ->]; [reflexivity|].
  now destruct (Double.DBL_MAX <? Double.DBL_MAX)%float.
Qed.

Lemma max_step_neg_DBL_MAX (c : float) :
  Double.finite c = true -> max_step (- Double.DBL_MAX)%float c = c.
Proof.
  intros H. unfold max_step.
  destruct (finite_above_neg_DBL_MAX c H) as [->| ->]; [reflexivity|].
  now destruct (- Double.DBL_MAX <? - Double.DBL_MAX)%float.
Qed.

Lemma fold_min_from_DBL_MAX (l : list float) :
  l <> [] -> Forall (fun x => Double.finite x = true) l ->
  is_min_of (fold_left min_step l Double.DBL_MAX) l.
Proof.
  destruct l as [|c l]; [congruence|]. intros _ Hl.
  apply Forall_cons_iff in Hl as [Hc Hl].
  cbn [fold_left]. rewrite (min_step_DBL_MAX c Hc).
  apply (fold_min_step l [c] c).
  - apply singleton_min. now apply finite_not_nan.
  - now apply finite_not_nan.
  - eapply Forall_impl; [|exact Hl]. apply finite_not_nan.
Qed.

Lemma fold_max_from_neg_DBL_MAX (l : list float) :
  l <> [] -> Forall (fun x => Double.finite x = true) l ->
  is_max_of (fold_left max_step l (- Double.DBL_MAX)%float) l.
Proof.
  destruct l as [|c l]; [congruence|]. intros _ Hl.
  apply Forall_cons_iff in Hl as [Hc Hl].
  cbn [fold_left]. rewrite (max_step_neg_DBL_MAX c Hc).
  apply (fold_max_step l [c] c).
  - apply singleton_max. now apply finite_not_nan.
  - now apply finite_not_nan.
  - eapply Forall_impl; [|exact Hl]. apply finite_not_nan.
Qed.

(** One round of the pillar loop compares the x and the y of the top and of
    the bottom of one pillar with the running limits. *)
Lemma limits_step_run (coord : list float) (s : nat)
    (xmin xmax ymin ymax : float) (t : trace) :
  6 * (Z.of_nat s + 1) <= Z.of_nat (List.length coord) ->
  Z.of_nat (List.length coord) <= Int.max_int ->
  limits_step coord (xmin, xmax, ymin, ymax) (Z.of_nat s) t
  = (inr (fold_left min_step (scanned_xs coord [Z.of_nat s]) xmin,
          fold_left max_step (scanned_xs coord [Z.of_nat s]) xmax,
          fold_left min_step (scanned_ys coord [Z.of_nat s]) ymin,
          fold_left max_step (scanned_ys coord [Z.of_nat s]) ymax), t).
Proof.
  intros Hlen Hmax. unfold limits_step, bind. unwrap.
  replace (Z.of_nat s * 6 + 0) with (6 * Z.of_nat s) by lia.
  replace (Z.of_nat s * 6 + 1) with (6 * Z.of_nat s + 1) by lia.
  replace (Z.of_nat s * 6 + 3) with (6 * Z.of_nat s + 3) by lia.
  replace (Z.of_nat s * 6 + 4) with (6 * Z.of_nat s + 4) by lia.
  repeat (rewrite (vec_at_in_range coord _ 0%float) by lia).
  reflexivity.
Qed.

Lemma pillar_loop_run (coord : list float) (n s : nat)
    (xmin xmax ymin ymax : float) (t : trace) :
  6 * (Z.of_nat s + Z.of_nat n) <= Z.of_nat (List.length coord) ->
  Z.of_nat (List.length coord) <= Int.max_int ->
  pillar_loop coord n (Z.of_nat s) (xmin, xmax, ymin, ymax) t
  = (inr (fold_left min_step
            (scanned_xs coord (map Z.of_nat (seq s n))) xmin,
          fold_left max_step
            (scanned_xs coord (map Z.of_nat (seq s n))) xmax,
          fold_left min_step
            (scanned_ys coord (map Z.of_nat (seq s n))) ymin,
          fold_left max_step
            (scanned_ys coord (map Z.of_nat (seq s n))) ymax), t).
Proof.
  revert s xmin xmax ymin ymax.
  induction n as [|n IH]; intros s xmin xmax ymin ymax Hlen Hmax.
  - reflexivity.
  - cbn [pillar_loop]. unfold bind.
    rewrite (limits_step_run coord s xmin xmax ymin ymax t) by lia.
    assert (Hnext : (Z.of_nat s + 1)%int = Z.of_nat (S s)).
    { unwrap. lia. }
    rewrite Hnext, IH by lia.
    reflexivity.
Qed.

Lemma scanned_nonempty (nx ny : Z) (coord : list float) :
  0 <= nx -> 0 <= ny ->
  end_xs nx ny coord <> [] /\ end_ys nx ny coord <> [].
Proof.
  intros Hx Hy. unfold end_xs, end_ys, pillar_numbers.
  assert (Hp : 0 < (nx + 1) * (ny + 1)) by (apply Z.mul_pos_pos; lia).
  destruct (Z.to_nat ((nx + 1) * (ny + 1))) as [|n] eqn:E; [lia|].
  split; discriminate.
Qed.

Lemma getGridLimits_run (p : EclipseGridParser) (nx ny nz : Z)
    (coord zcorn : list float) (t : trace) :
  0 <= nx -> 0 <= ny ->
  6 * (nx + 1) * (ny + 1) <= Int.max_int ->
  hasField p "SPECGRID" = true ->
  floating_field_map p "COORD" = Some coord ->
  floating_field_map p "ZCORN" = Some zcorn ->
  Z.of_nat (List.length coord) = 6 * (nx + 1) * (ny + 1) ->
  getGridLimits (inspector_of p nx ny nz) t
  = (zmin <- min_element zcorn ;;
     zmax <- max_element zcorn ;;
     ret [ fold_left min_step (end_xs nx ny coord) Double.DBL_MAX;
           fold_left max_step (end_xs nx ny coord) (- Double.DBL_MAX)%float;
           fold_left min_step (end_ys nx ny coord) Double.DBL_MAX;
           fold_left max_step (end_ys nx ny coord) (- Double.DBL_MAX)%float;
           zmin; zmax ]) (t ++ ["COORD"] ++ ["ZCORN"])%list.
Proof.
  intros Hx Hy Hfit Hs Hc Hz Hlen.
  assert (Hp : 0 < (nx + 1) * (ny + 1)) by (apply Z.mul_pos_pos; lia).
  assert (Hn : nx + 1 <= (nx + 1) * (ny + 1)) by nia.
  assert (Hn' : ny + 1 <= (nx + 1) * (ny + 1)) by nia.
  assert (Hcf : hasField p "COORD" = true)
    by (unfold hasField; rewrite Hc; cbn; now rewrite orb_true_r).
  assert (Hzf : hasField p "ZCORN" = true)
    by (unfold hasField; rewrite Hz; cbn; now rewrite orb_true_r).
  rewrite app_assoc.
  unfold getGridLimits.
  cbv beta iota zeta delta [inspector_of parser_ logical_gridsize_ idx0 idx1].
  rewrite Hcf, Hzf, Hs. cbv beta iota delta [andb negb].
  unfold bind at 1. unfold getFloatingPointValue at 1. rewrite Hc.
  unfold bind at 1. unfold getFloatingPointValue at 1. rewrite Hz.
  assert (Hpil : ((nx + 1) * (ny + 1))%int = (nx + 1) * (ny + 1)).
  { unwrap. reflexivity. }
  rewrite Hpil. unfold bind at 1.
  change 0 with (Z.of_nat 0) at 1.
  rewrite pillar_loop_run by lia.
  reflexivity.
Qed.

(** C3 (as amended): gridLimits computes xmin/xmax/ymin/ymax as the minimum
    and the maximum over the (x, y) of both ends, top and bottom, of the
    (nx+1)*(ny+1) pillars, so the bottom coordinates do influence the result,
    and zmin/zmax as the minimum and the maximum over the entire ZCORN
    array.  This is for pillar coordinates that are numbers and depths that
    are not NaN, SPECGRID present, COORD of the right size and ZCORN not
    empty. *)
Theorem getGridLimits_scans_both_pillar_ends (p : EclipseGridParser)
    (nx ny nz : Z) (coord zcorn : list float) (t : trace) :
  0 <= nx -> 0 <= ny ->
  6 * (nx + 1) * (ny + 1) <= Int.max_int ->
  hasField p "SPECGRID" = true ->
  floating_field_map p "COORD" = Some coord ->
  floating_field_map p "ZCORN" = Some zcorn ->
  Z.of_nat (List.length coord) = 6 * (nx + 1) * (ny + 1) ->
  zcorn <> [] ->
  Forall (fun x => is_finite x = true) (end_xs nx ny coord) ->
  Forall (fun y => is_finite y = true) (end_ys nx ny coord) ->
  Forall (fun d => is_nan d = false) zcorn ->
  exists xmin xmax ymin ymax zmin zmax : float,
    fst (getGridLimits (inspector_of p nx ny nz) t)
    = inr [xmin; xmax; ymin; ymax; zmin; zmax]
    /\ is_min_of xmin (end_xs nx ny coord)
    /\ is_max_of xmax (end_xs nx ny coord)
    /\ is_min_of ymin (end_ys nx ny coord)
    /\ is_max_of ymax (end_ys nx ny coord)
    /\ is_min_of zmin zcorn
    /\ is_max_of zmax zcorn.
Proof.
  intros Hx Hy Hfit Hs Hc Hz Hlen Hne Hxs Hys Hzs.
  apply (Forall_impl _ (fun x H => eq_trans (finite_is_finite x) H)) in Hxs.
  apply (Forall_impl _ (fun x H => eq_trans (finite_is_finite x) H)) in Hys.
  apply (Forall_impl _ not_nan_is_nan) in Hzs.
  rewrite (getGridLimits_run p nx ny nz coord zcorn t
             Hx Hy Hfit Hs Hc Hz Hlen).
  destruct (scanned_nonempty nx ny coord Hx Hy) as [Hxne Hyne].
  destruct (min_element_run zcorn (t ++ ["COORD"] ++ ["ZCORN"])%list Hne Hzs)
    as (zmin & Hmin & Hzmin).
  destruct (max_element_run zcorn (t ++ ["COORD"] ++ ["ZCORN"])%list Hne Hzs)
    as (zmax & Hmax & Hzmax).
  unfold bind. rewrite Hmin, Hmax.
  do 6 eexists. split; [reflexivity|].
  split; [now apply fold_min_from_DBL_MAX|].
  split; [now apply fold_max_from_neg_DBL_MAX|].
  split; [now apply fold_min_from_DBL_MAX|].
  split; [now apply fold_max_from_neg_DBL_MAX|].
  now split.
Qed.

Lemma getGridLimits_scans_both_pillar_ends_witness :
  exists xmin xmax ymin ymax zmin zmax : float,
    fst (getGridLimits
           (inspector_of
              (Samples.grid_parser (1, 1, 1) Samples.leaning_square
                 Samples.unit_depths) 1 1 1) [])
    = inr [xmin; xmax; ymin; ymax; zmin; zmax]
    /\ is_min_of xmin (end_xs 1 1 Samples.leaning_square)
    /\ is_max_of xmax (end_xs 1 1 Samples.leaning_square)
    /\ is_min_of ymin (end_ys 1 1 Samples.leaning_square)
    /\ is_max_of ymax (end_ys 1 1 Samples.leaning_square)
    /\ is_min_of zmin Samples.unit_depths
    /\ is_max_of zmax Samples.unit_depths.
Proof.
  apply (getGridLimits_scans_both_pillar_ends
           (Samples.grid_parser (1, 1, 1) Samples.leaning_square
              Samples.unit_depths) 1 1 1 Samples.leaning_square
           Samples.unit_depths []).
  - lia.
  - lia.
  - unfold Int.max_int. lia.
  - reflexivity.
  - reflexivity.
  - reflexivity.
  - reflexivity.
  - discriminate.
  - repeat constructor.
  - repeat constructor.
  - repeat constructor.
Defined.

(** Two distinct closed doubles are not equal. *)
Ltac float_neq H :=
  apply (f_equal Prim2SF) in H; vm_compute in H; discriminate H.

(** C3 (as stated) fails: the leaning pillars have their tops on the unit
    square, as the vertical pillars of [unit_square] have, and their bottoms
    at x + 4 and y + 6.  The limits returned are xmax = 5 and ymax = 7,
    which no top has; over the tops alone the maxima are 1 and 1, which is
    what the vertical pillars give. *)
Lemma getGridLimits_bottom_coordinates_count :
  top_xs 1 1 Samples.leaning_square = top_xs 1 1 Samples.unit_square
  /\ top_ys 1 1 Samples.leaning_square = top_ys 1 1 Samples.unit_square
  /\ run (getGridLimits
            (inspector_of
               (Samples.grid_parser (1, 1, 1) Samples.unit_square
                  Samples.unit_depths) 1 1 1))
     = (inr [0; 1; 0; 1; 0; 1]%float, ["COORD"; "ZCORN"])
  /\ run (getGridLimits
            (inspector_of
               (Samples.grid_parser (1, 1, 1) Samples.leaning_square
                  Samples.unit_depths) 1 1 1))
     = (inr [0; 5; 0; 7; 0; 1]%float, ["COORD"; "ZCORN"])
  /\ ~ is_max_of 5%float (top_xs 1 1 Samples.leaning_square)
  /\ ~ is_max_of 7%float (top_ys 1 1 Samples.leaning_square).
Proof.
  split; [vm_compute; reflexivity|].
  split; [vm_compute; reflexivity|].
  split; [vm_compute; reflexivity|].
  split; [vm_compute; reflexivity|].
  split; intros [Hin _]; vm_compute in Hin;
    repeat (destruct Hin as [Hin|Hin]; [float_neq Hin|]); exact Hin.
Qed.

(* ================================================================== *)
(** ** Further properties: construction and grid limits without SPECGRID *)

Lemma constructor_keeps_parser (p : EclipseGridParser) (t t' : trace)
    (g : Inspector) :
  EclipseGridInspector p t = (inr g, t') -> parser_ g = p.
Proof.
  unfold EclipseGridInspector.
  destruct (negb (hasFields p ["COORD"; "ZCORN"])); [discriminate|].
  destruct (hasField p "SPECGRID").
  - unfold bind, getSPECGRID.
    destruct (specgrid_field p) as [s|]; [|discriminate].
    destruct (dimensions s) as [[d0 d1] d2]. intros H.
    injection H as <- _. reflexivity.
  - destruct (hasField p "DIMENS"); [|discriminate].
    unfold bind, getIntegerValue.
    destruct (integer_field_map p "DIMENS") as [dim|]; [|discriminate].
    destruct dim as [|d0 [|d1 [|d2 rest]]]; try discriminate.
    intros H. injection H as <- _. reflexivity.
Qed.

Lemma getGridLimits_missing_field (g : Inspector) (t : trace) :
  hasField (parser_ g) "COORD" && hasField (parser_ g) "ZCORN"
  && hasField (parser_ g) "SPECGRID" = false ->
  getGridLimits g t = (inl no_limits_error, t).
Proof. intros H. unfold getGridLimits. now rewrite H. Qed.

(** X1: an inspector constructed from a parser without SPECGRID (its size
    then comes from DIMENS) cannot report grid limits: every call of
    getGridLimits on it fails with the missing-field error and fetches no
    array. *)
Theorem getGridLimits_unavailable_without_specgrid (p : EclipseGridParser)
    (g : Inspector) (t t' t'' : trace) :
  EclipseGridInspector p t = (inr g, t') ->
  hasField p "SPECGRID" = false ->
  getGridLimits g t'' = (inl no_limits_error, t'').
Proof.
  intros Hc Hs. apply getGridLimits_missing_field.
  rewrite (constructor_keeps_parser p t t' g Hc), Hs.
  now rewrite andb_false_r.
Qed.

Lemma getGridLimits_unavailable_without_specgrid_witness :
  getGridLimits
    {| parser_ := Samples.dimens_only; logical_gridsize_ := mk_int3 5 6 7 |}
    ["DIMENS"]
  = (inl no_limits_error, ["DIMENS"]).
Proof.
  apply (getGridLimits_unavailable_without_specgrid Samples.dimens_only
           {| parser_ := Samples.dimens_only;
              logical_gridsize_ := mk_int3 5 6 7 |} [] ["DIMENS"] ["DIMENS"]).
  - reflexivity.
  - reflexivity.
Defined.

(** X2: with COORD and ZCORN present and SPECGRID absent, a DIMENS field of
    fewer than three integers is read past its end: the construction has
    undefined behaviour, it raises no configuration error. *)
Theorem constructor_short_dimens_undefined (p : EclipseGridParser)
    (dim : list Z) (t : trace) :
  hasField p "COORD" = true -> hasField p "ZCORN" = true ->
  hasField p "SPECGRID" = false ->
  integer_field_map p "DIMENS" = Some dim ->
  (List.length dim < 3)%nat ->
  EclipseGridInspector p t
  = (inl undefined_behaviour, (t ++ ["DIMENS"])%list).
Proof.
  intros Hc Hz Hs Hd Hlen. unfold EclipseGridInspector.
  rewrite hasFields_coord_zcorn, Hc, Hz, Hs, (hasField_dimens p _ Hd).
  cbn [andb negb]. unfold bind, getIntegerValue. rewrite Hd.
  destruct dim as [|d0 [|d1 [|d2 rest]]]; try reflexivity.
  cbn in Hlen. lia.
Qed.

Lemma constructor_short_dimens_undefined_witness :
  EclipseGridInspector Samples.short_dimens []
  = (inl undefined_behaviour, ["DIMENS"]).
Proof.
  apply (constructor_short_dimens_undefined Samples.short_dimens [5; 6] []).
  - reflexivity.
  - reflexivity.
  - reflexivity.
  - reflexivity.
  - cbn. lia.
Defined.

(* ================================================================== *)
(** ** Further properties: index queries on an empty horizon *)

Lemma Prim2SF_zero_literal : Prim2SF 0 = S754_zero false.
Proof. vm_compute. reflexivity. Qed.

Lemma of_int_zero : Double.of_int 0 = 0%float.
Proof. vm_compute. reflexivity. Qed.

(** The floor of a quotient by zero is no integer. *)
Lemma int_of_floor_div_zero (a : float) (t : trace) :
  int_of_floor (PrimFloat.div a 0) t = (inl undefined_behaviour, t).
Proof.
  unfold int_of_floor, Double.floor. rewrite FloatAxioms.div_spec.
  rewrite Prim2SF_zero_literal. unfold SF64div, SFdiv.
  now destruct (Prim2SF a).
Qed.

(** X3: on a grid whose horizon is empty (nx*ny = 0 as an int, which the
    constructor accepts) the index conversion divides by zero and casts the
    infinite or NaN quotient to int: cellIdxToLogicalCoords and the two
    index-based queries have undefined behaviour for every cell index, and
    fetch no array. *)
Theorem empty_horizon_index_queries_undefined (p : EclipseGridParser)
    (nx ny nz cell_idx : Z) (t : trace) :
  (nx * ny)%int = 0 ->
  cellIdxToLogicalCoords (inspector_of p nx ny nz) cell_idx t
  = (inl undefined_behaviour, t)
  /\ cellDips_idx (inspector_of p nx ny nz) cell_idx t
     = (inl undefined_behaviour, t)
  /\ cellVolumeVerticalPillars_idx (inspector_of p nx ny nz) cell_idx t
     = (inl undefined_behaviour, t).
Proof.
  intros H0.
  assert (Hconv : cellIdxToLogicalCoords (inspector_of p nx ny nz) cell_idx t
                  = (inl undefined_behaviour, t)).
  { unfold cellIdxToLogicalCoords.
    cbv beta iota zeta delta [inspector_of logical_gridsize_ idx0 idx1 idx2].
    rewrite H0, of_int_zero. unfold bind at 1.
    now rewrite int_of_floor_div_zero. }
  split; [exact Hconv|].
  split.
  - unfold cellDips_idx, bind. now rewrite Hconv.
  - unfold cellVolumeVerticalPillars_idx, bind. now rewrite Hconv.
Qed.

Lemma empty_horizon_index_queries_undefined_witness :
  cellIdxToLogicalCoords (inspector_of Samples.degenerate 0 (-1) 5) 0 []
  = (inl undefined_behaviour, [])
  /\ cellDips_idx (inspector_of Samples.degenerate 0 (-1) 5) 0 []
     = (inl undefined_behaviour, [])
  /\ cellVolumeVerticalPillars_idx
       (inspector_of Samples.degenerate 0 (-1) 5) 0 []
     = (inl undefined_behaviour, []).
Proof.
  apply (empty_horizon_index_queries_undefined Samples.degenerate
           0 (-1) 5 0 []).
  reflexivity.
Defined.

(* ================================================================== *)
(** ** Further properties: grid limits and array sizes *)

(** The pillar loop reads up to the fifth value of each pillar, and no
    further. *)
Lemma limits_step_reads_five (coord : list float) (s : nat)
    (xmin xmax ymin ymax : float) (t : trace) :
  6 * Z.of_nat s + 4 < Z.of_nat (List.length coord) ->
  6 * Z.of_nat s + 4 <= Int.max_int ->
  limits_step coord (xmin, xmax, ymin, ymax) (Z.of_nat s) t
  = (inr (fold_left min_step (scanned_xs coord [Z.of_nat s]) xmin,
          fold_left max_step (scanned_xs coord [Z.of_nat s]) xmax,
          fold_left min_step (scanned_ys coord [Z.of_nat s]) ymin,
          fold_left max_step (scanned_ys coord [Z.of_nat s]) ymax), t).
Proof.
  intros Hlen Hmax. unfold limits_step, bind. unwrap.
  replace (Z.of_nat s * 6 + 0) with (6 * Z.of_nat s) by lia.
  replace (Z.of_nat s * 6 + 1) with (6 * Z.of_nat s + 1) by lia.
  replace (Z.of_nat s * 6 + 3) with (6 * Z.of_nat s + 3) by lia.
  replace (Z.of_nat s * 6 + 4) with (6 * Z.of_nat s + 4) by lia.
  repeat (rewrite (vec_at_in_range coord _ 0%float) by lia).
  reflexivity.
Qed.

Lemma vec_at_outcome {A : Type} (v : list A) (ix : Z) (t : trace) :
  (exists a, vec_at v ix t = (inr a, t)
             /\ 0 <= ix < Z.of_nat (List.length v))
  \/ vec_at v ix t = (inl undefined_behaviour, t).
Proof.
  unfold vec_at. destruct (ix <? 0) eqn:E; [now right|].
  destruct (nth_error v (Z.to_nat ix)) as [a|] eqn:N; [|now right].
  left. exists a. split; [reflexivity|].
  assert (Z.to_nat ix < List.length v)%nat
    by (apply nth_error_Some; congruence).
  lia.
Qed.

Lemma limits_step_past_end (coord : list float) (s : nat)
    (lim : float * float * float * float) (t : trace) :
  Z.of_nat (List.length coord) <= 6 * Z.of_nat s + 4 ->
  6 * Z.of_nat s + 4 <= Int.max_int ->
  limits_step coord lim (Z.of_nat s) t = (inl undefined_behaviour, t).
Proof.
  intros Hlen Hmax. destruct lim as [[[xmin xmax] ymin] ymax].
  unfold limits_step, bind. unwrap.
  destruct (vec_at_outcome coord (Z.of_nat s * 6 + 0) t)
    as [(c0 & -> & _)| ->]; [|reflexivity].
  destruct (vec_at_outcome coord (Z.of_nat s * 6 + 1) t)
    as [(c1 & -> & _)| ->]; [|reflexivity].
  destruct (vec_at_outcome coord (Z.of_nat s * 6 + 3) t)
    as [(c3 & -> & _)| ->]; [|reflexivity].
  destruct (vec_at_outcome coord (Z.of_nat s * 6 + 4) t)
    as [(c4 & _ & Hin)| ->]; [lia|reflexivity].
Qed.

Lemma pillar_loop_reads (coord : list float) (n s : nat)
    (xmin xmax ymin ymax : float) (t : trace) :
  (n <> O -> 6 * (Z.of_nat s + Z.of_nat n) - 1 <= Z.of_nat (List.length coord)) ->
  6 * (Z.of_nat s + Z.of_nat n) <= Int.max_int ->
  pillar_loop coord n (Z.of_nat s) (xmin, xmax, ymin, ymax) t
  = (inr (fold_left min_step
            (scanned_xs coord (map Z.of_nat (seq s n))) xmin,
          fold_left max_step
            (scanned_xs coord (map Z.of_nat (seq s n))) xmax,
          fold_left min_step
            (scanned_ys coord (map Z.of_nat (seq s n))) ymin,
          fold_left max_step
            (scanned_ys coord (map Z.of_nat (seq s n))) ymax), t).
Proof.
  revert s xmin xmax ymin ymax.
  induction n as [|n IH]; intros s xmin xmax ymin ymax Hlen Hmax.
  - reflexivity.
  - specialize (Hlen (Nat.neq_succ_0 n)).
    cbn [pillar_loop]. unfold bind.
    rewrite (limits_step_reads_five coord s xmin xmax ymin ymax t) by lia.
    assert (Hnext : (Z.of_nat s + 1)%int = Z.of_nat (S s)).
    { unwrap. lia. }
    rewrite Hnext, IH by lia.
    reflexivity.
Qed.

Lemma pillar_loop_past_end (coord : list float) (n s : nat)
    (lim : float * float * float * float) (t : trace) :
  n <> O ->
  Z.of_nat (List.length coord) < 6 * (Z.of_nat s + Z.of_nat n) - 1 ->
  6 * (Z.of_nat s + Z.of_nat n) <= Int.max_int ->
  pillar_loop coord n (Z.of_nat s) lim t = (inl undefined_behaviour, t).
Proof.
  revert s lim.
  induction n as [|n IH]; intros s lim Hn Hlen Hmax; [congruence|].
  cbn [pillar_loop]. unfold bind.
  destruct (Z_lt_le_dec (6 * Z.of_nat s + 4) (Z.of_nat (List.length coord)))
    as [Hin|Hout].
  - destruct lim as [[[xmin xmax] ymin] ymax].
    rewrite (limits_step_reads_five coord s xmin xmax ymin ymax t) by lia.
    assert (Hnext : (Z.of_nat s + 1)%int = Z.of_nat (S s)).
    { unwrap. lia. }
    rewrite Hnext. apply IH; [|lia|lia].
    intros ->. lia.
  - now rewrite (limits_step_past_end coord s lim t) by lia.
Qed.

(** The limits as the pillar loop and the two scans leave them, for a COORD
    that holds at least the values the loop reads. *)
Lemma getGridLimits_reads (p : EclipseGridParser) (nx ny nz : Z)
    (coord zcorn : list float) (t : trace) :
  let n := Z.to_nat ((nx + 1) * (ny + 1))%int in
  hasField p "SPECGRID" = true ->
  floating_field_map p "COORD" = Some coord ->
  floating_field_map p "ZCORN" = Some zcorn ->
  (n <> O -> 6 * Z.of_nat n - 1 <= Z.of_nat (List.length coord)) ->
  6 * Z.of_nat n <= Int.max_int ->
  getGridLimits (inspector_of p nx ny nz) t
  = (zmin <- min_element zcorn ;;
     zmax <- max_element zcorn ;;
     ret [ fold_left min_step
             (scanned_xs coord (map Z.of_nat (seq 0 n))) Double.DBL_MAX;
           fold_left max_step
             (scanned_xs coord (map Z.of_nat (seq 0 n)))
             (- Double.DBL_MAX)%float;
           fold_left min_step
             (scanned_ys coord (map Z.of_nat (seq 0 n))) Double.DBL_MAX;
           fold_left max_step
             (scanned_ys coord (map Z.of_nat (seq 0 n)))
             (- Double.DBL_MAX)%float;
           zmin; zmax ]) (t ++ ["COORD"] ++ ["ZCORN"])%list.
Proof.
  intros n Hs Hc Hz Hlen Hmax.
  assert (Hcf : hasField p "COORD" = true)
    by (unfold hasField; rewrite Hc; cbn; now rewrite orb_true_r).
  assert (Hzf : hasField p "ZCORN" = true)
    by (unfold hasField; rewrite Hz; cbn; now rewrite orb_true_r).
  rewrite app_assoc.
  unfold getGridLimits.
  cbv beta iota zeta delta [inspector_of parser_ logical_gridsize_ idx0 idx1].
  rewrite Hcf, Hzf, Hs. cbv beta iota delta [andb negb].
  unfold bind at 1. unfold getFloatingPointValue at 1. rewrite Hc.
  unfold bind at 1. unfold getFloatingPointValue at 1. rewrite Hz.
  fold n. unfold bind at 1.
  change 0 with (Z.of_nat 0) at 1.
  rewrite pillar_loop_reads by (cbn [Z.of_nat]; lia).
  reflexivity.
Qed.

(** X4: getGridLimits never compares the length of COORD with the grid size.
    When COORD is shorter than the 6*P - 1 values the loop over the
    P = (nx+1)*(ny+1) pillars reads, the loop reads past the end of the
    vector: the behaviour is undefined, not a size error. *)
Theorem getGridLimits_short_coord_undefined (p : EclipseGridParser)
    (nx ny nz : Z) (coord zcorn : list float) (t : trace) :
  0 <= nx -> 0 <= ny ->
  6 * (nx + 1) * (ny + 1) <= Int.max_int ->
  hasField p "SPECGRID" = true ->
  floating_field_map p "COORD" = Some coord ->
  floating_field_map p "ZCORN" = Some zcorn ->
  Z.of_nat (List.length coord) < 6 * (nx + 1) * (ny + 1) - 1 ->
  getGridLimits (inspector_of p nx ny nz) t
  = (inl undefined_behaviour, (t ++ ["COORD"] ++ ["ZCORN"])%list).
Proof.
  intros Hx Hy Hfit Hs Hc Hz Hlen.
  assert (Hp : 0 < (nx + 1) * (ny + 1)) by (apply Z.mul_pos_pos; lia).
  assert (Hn : nx + 1 <= (nx + 1) * (ny + 1)) by nia.
  assert (Hn' : ny + 1 <= (nx + 1) * (ny + 1)) by nia.
  assert (Hcf : hasField p "COORD" = true)
    by (unfold hasField; rewrite Hc; cbn; now rewrite orb_true_r).
  assert (Hzf : hasField p "ZCORN" = true)
    by (unfold hasField; rewrite Hz; cbn; now rewrite orb_true_r).
  rewrite app_assoc.
  unfold getGridLimits.
  cbv beta iota zeta delta [inspector_of parser_ logical_gridsize_ idx0 idx1].
  rewrite Hcf, Hzf, Hs. cbv beta iota delta [andb negb].
  unfold bind at 1. unfold getFloatingPointValue at 1. rewrite Hc.
  unfold bind at 1. unfold getFloatingPointValue at 1. rewrite Hz.
  assert (Hpil : ((nx + 1) * (ny + 1))%int = (nx + 1) * (ny + 1)).
  { unwrap. reflexivity. }
  rewrite Hpil. unfold bind at 1.
  change 0 with (Z.of_nat 0) at 1.
  rewrite pillar_loop_past_end; [reflexivity|lia|lia|lia].
Qed.

Lemma getGridLimits_short_coord_undefined_witness :
  getGridLimits
    (inspector_of
       (Samples.grid_parser (1, 1, 1) (Samples.ramp 22 0) Samples.unit_depths)
       1 1 1) []
  = (inl undefined_behaviour, ["COORD"; "ZCORN"]).
Proof.
  apply (getGridLimits_short_coord_undefined
           (Samples.grid_parser (1, 1, 1) (Samples.ramp 22 0)
              Samples.unit_depths) 1 1 1 (Samples.ramp 22 0)
           Samples.unit_depths []).
  - lia.
  - lia.
  - unfold Int.max_int. lia.
  - reflexivity.
  - reflexivity.
  - reflexivity.
  - cbn. lia.
Defined.

(** X5: with an empty ZCORN, which is the correctly sized array of a grid
    with no cells, getGridLimits dereferences the end of the vector after
    the pillar loop: the behaviour is undefined. *)
Theorem getGridLimits_empty_zcorn_undefined (p : EclipseGridParser)
    (nx ny nz : Z) (coord : list float) (t : trace) :
  0 <= nx -> 0 <= ny ->
  6 * (nx + 1) * (ny + 1) <= Int.max_int ->
  hasField p "SPECGRID" = true ->
  floating_field_map p "COORD" = Some coord ->
  floating_field_map p "ZCORN" = Some [] ->
  6 * (nx + 1) * (ny + 1) - 1 <= Z.of_nat (List.length coord) ->
  getGridLimits (inspector_of p nx ny nz) t
  = (inl undefined_behaviour, (t ++ ["COORD"] ++ ["ZCORN"])%list).
Proof.
  intros Hx Hy Hfit Hs Hc Hz Hlen.
  assert (Hp : 0 < (nx + 1) * (ny + 1)) by (apply Z.mul_pos_pos; lia).
  assert (Hn : nx + 1 <= (nx + 1) * (ny + 1)) by nia.
  assert (Hn' : ny + 1 <= (nx + 1) * (ny + 1)) by nia.
  assert (Hpil : ((nx + 1) * (ny + 1))%int = (nx + 1) * (ny + 1)).
  { unwrap. reflexivity. }
  rewrite (getGridLimits_reads p nx ny nz coord [] t Hs Hc Hz);
    rewrite ?Hpil; [reflexivity|lia|lia].
Qed.

Lemma getGridLimits_empty_zcorn_undefined_witness :
  getGridLimits
    (inspector_of
       (Samples.grid_parser (1, 1, 0) Samples.unit_square []) 1 1 0) []
  = (inl undefined_behaviour, ["COORD"; "ZCORN"]).
Proof.
  apply (getGridLimits_empty_zcorn_undefined
           (Samples.grid_parser (1, 1, 0) Samples.unit_square [])
           1 1 0 Samples.unit_square []).
  - lia.
  - lia.
  - unfold Int.max_int. lia.
  - reflexivity.
  - reflexivity.
  - reflexivity.
  - cbn. lia.
Defined.

(** X6: when the grid has no pillar (the pillar count (nx+1)*(ny+1) is
    <= 0, for instance with nx = -1, which the constructor accepts, and
    nx, ny, nx+1, ny+1 and the product are values of int, so that no int
    operation overflows), the pillar loop does not run: COORD is fetched but
    never indexed, and the x and y limits returned are the start values
    +DBL_MAX (minima) and -DBL_MAX (maxima), each minimum above its
    maximum. *)
Theorem getGridLimits_no_pillars (p : EclipseGridParser) (nx ny nz : Z)
    (coord zcorn : list float) (t : trace) :
  Int.in_range nx -> Int.in_range ny ->
  Int.in_range (nx + 1) -> Int.in_range (ny + 1) ->
  Int.in_range ((nx + 1) * (ny + 1)) ->
  (nx + 1) * (ny + 1) <= 0 ->
  hasField p "SPECGRID" = true ->
  floating_field_map p "COORD" = Some coord ->
  floating_field_map p "ZCORN" = Some zcorn ->
  zcorn <> [] ->
  exists zmin zmax : float,
    getGridLimits (inspector_of p nx ny nz) t
    = (inr [ Double.DBL_MAX; (- Double.DBL_MAX)%float;
             Double.DBL_MAX; (- Double.DBL_MAX)%float; zmin; zmax ],
       (t ++ ["COORD"] ++ ["ZCORN"])%list).
Proof.
  intros _ _ Hx Hy Hxy Hp Hs Hc Hz Hne.
  assert (Hw : ((nx + 1) * (ny + 1))%int = (nx + 1) * (ny + 1)).
  { unfold Int.mul, Int.add. now rewrite (wrap_id _ Hx), (wrap_id _ Hy),
      (wrap_id _ Hxy). }
  assert (Hn : Z.to_nat ((nx + 1) * (ny + 1))%int = O) by (rewrite Hw; lia).
  rewrite (getGridLimits_reads p nx ny nz coord zcorn t Hs Hc Hz);
    rewrite ?Hn; [|congruence|cbn; unfold Int.max_int; lia].
  destruct zcorn as [|d r]; [congruence|].
  do 2 eexists. reflexivity.
Qed.

Lemma getGridLimits_no_pillars_witness :
  exists zmin zmax : float,
    getGridLimits
      (inspector_of
         (Samples.grid_parser (-1, 3, 1) [] Samples.unit_depths) (-1) 3 1) []
    = (inr [ Double.DBL_MAX; (- Double.DBL_MAX)%float;
             Double.DBL_MAX; (- Double.DBL_MAX)%float; zmin; zmax ],
       ["COORD"; "ZCORN"]).
Proof.
  apply (getGridLimits_no_pillars
           (Samples.grid_parser (-1, 3, 1) [] Samples.unit_depths)
           (-1) 3 1 [] Samples.unit_depths []).
  - unfold Int.in_range, Int.min_int, Int.max_int. lia.
  - unfold Int.in_range, Int.min_int, Int.max_int. lia.
  - unfold Int.in_range, Int.min_int, Int.max_int. lia.
  - unfold Int.in_range, Int.min_int, Int.max_int. lia.
  - unfold Int.in_range, Int.min_int, Int.max_int. lia.
  - lia.
  - reflexivity.
  - reflexivity.
  - reflexivity.
  - discriminate.
Defined.

(** A comparison that holds has no NaN on either side. *)
Lemma fltb_true_not_nan (a b : float) :
  (a <? b)%float = true -> is_nan a = false /\ is_nan b = false.
Proof.
  unfold is_nan. rewrite FloatAxioms.ltb_spec, !FloatAxioms.eqb_spec.
  unfold SFltb, SFeqb. intros H.
  assert (Ha : Prim2SF a <> S754_nan)
    by (intros E; rewrite E in H; discriminate).
  assert (Hb : Prim2SF b <> S754_nan)
    by (intros E; rewrite E in H; destruct (Prim2SF a); discriminate).
  now rewrite !SFcompare_refl.
Qed.

Lemma fold_min_step_not_nan (l : list float) (acc : float) :
  is_nan acc = false -> is_nan (fold_left min_step l acc) = false.
Proof.
  revert acc. induction l as [|c l IH]; intros acc Hacc; [exact Hacc|].
  cbn [fold_left]. apply IH. unfold min_step.
  destruct (c <? acc)%float eqn:E; [|exact Hacc].
  now destruct (fltb_true_not_nan c acc E).
Qed.

Lemma fold_max_step_not_nan (l : list float) (acc : float) :
  is_nan acc = false -> is_nan (fold_left max_step l acc) = false.
Proof.
  revert acc. induction l as [|c l IH]; intros acc Hacc; [exact Hacc|].
  cbn [fold_left]. apply IH. unfold max_step.
  destruct (acc <? c)%float eqn:E; [|exact Hacc].
  now destruct (fltb_true_not_nan acc c E).
Qed.

Lemma DBL_MAX_not_nan :
  is_nan Double.DBL_MAX = false /\ is_nan (- Double.DBL_MAX)%float = false.
Proof. split; vm_compute; reflexivity. Qed.

(** X7: given SPECGRID, a COORD of at least 6*P - 1 values for the
    P = (nx+1)*(ny+1) pillars and a non-empty ZCORN, of whatever lengths
    otherwise, getGridLimits returns six limits, and its x and y limits are
    never NaN, whatever values COORD holds: a NaN coordinate loses every
    comparison and is skipped. *)
Theorem getGridLimits_xy_limits_not_nan (p : EclipseGridParser)
    (nx ny nz : Z) (coord zcorn : list float) (t : trace) :
  0 <= nx -> 0 <= ny ->
  6 * (nx + 1) * (ny + 1) <= Int.max_int ->
  hasField p "SPECGRID" = true ->
  floating_field_map p "COORD" = Some coord ->
  floating_field_map p "ZCORN" = Some zcorn ->
  6 * (nx + 1) * (ny + 1) - 1 <= Z.of_nat (List.length coord) ->
  zcorn <> [] ->
  exists xmin xmax ymin ymax zmin zmax : float,
    getGridLimits (inspector_of p nx ny nz) t
    = (inr [xmin; xmax; ymin; ymax; zmin; zmax],
       (t ++ ["COORD"] ++ ["ZCORN"])%list)
    /\ is_nan xmin = false /\ is_nan xmax = false
    /\ is_nan ymin = false /\ is_nan ymax = false.
Proof.
  intros Hx Hy Hfit Hs Hc Hz Hlen Hne.
  assert (Hp : 0 < (nx + 1) * (ny + 1)) by (apply Z.mul_pos_pos; lia).
  assert (Hn : nx + 1 <= (nx + 1) * (ny + 1)) by nia.
  assert (Hn' : ny + 1 <= (nx + 1) * (ny + 1)) by nia.
  assert (Hpil : ((nx + 1) * (ny + 1))%int = (nx + 1) * (ny + 1)).
  { unwrap. reflexivity. }
  rewrite (getGridLimits_reads p nx ny nz coord zcorn t Hs Hc Hz);
    rewrite ?Hpil; [|lia|lia].
  destruct zcorn as [|d r]; [congruence|].
  destruct DBL_MAX_not_nan as [Hmax Hmin].
  do 6 eexists. split; [reflexivity|].
  split; [now apply fold_min_step_not_nan|].
  split; [now apply fold_max_step_not_nan|].
  split; [now apply fold_min_step_not_nan|now apply fold_max_step_not_nan].
Qed.

Lemma getGridLimits_xy_limits_not_nan_witness :
  exists xmin xmax ymin ymax zmin zmax : float,
    getGridLimits
      (inspector_of
         (Samples.grid_parser (1, 1, 1)
            (nan :: nan :: Samples.ramp 28 0) Samples.tilted_depths)
         1 1 1) []
    = (inr [xmin; xmax; ymin; ymax; zmin; zmax], ["COORD"; "ZCORN"])
    /\ is_nan xmin = false /\ is_nan xmax = false
    /\ is_nan ymin = false /\ is_nan ymax = false.
Proof.
  apply (getGridLimits_xy_limits_not_nan
           (Samples.grid_parser (1, 1, 1)
              (nan :: nan :: Samples.ramp 28 0) Samples.tilted_depths)
           1 1 1 (nan :: nan :: Samples.ramp 28 0) Samples.tilted_depths []).
  - lia.
  - lia.
  - unfold Int.max_int. lia.
  - reflexivity.
  - reflexivity.
  - reflexivity.
  - cbn. lia.
  - discriminate.
Defined.



(* ================================================================== *)
(** ** Further properties: level and pinched-out cells *)

Import Shape.

Lemma a_zero_is_zero (x : float) : a_zero x -> is_zero x = true.
Proof. intros [s H]. exact (is_zero_spec x s H). Qed.

Lemma fsub_diag_a_zero (x : float) : is_finite x = true -> a_zero (x - x).
Proof.
  intros H. rewrite <- finite_is_finite in H.
  exists false. now apply fsub_diag.
Qed.

Lemma nonzero_number_finite (d : float) :
  nonzero_number d -> exists s m e, Prim2SF d = S754_finite s m e.
Proof.
  intros [Hf Hz]. rewrite <- finite_is_finite in Hf.
  unfold Double.finite in Hf. unfold is_zero in Hz.
  rewrite FloatAxioms.eqb_spec, Prim2SF_zero in Hz.
  destruct (Prim2SF d) as [s|s| |s m e]; try discriminate; eauto.
Qed.

Lemma a_zero_div (a d : float) :
  a_zero a -> nonzero_number d -> a_zero (a / d).
Proof.
  intros [sa Ha] Hd. destruct (nonzero_number_finite d Hd) as (s & m & e & Hd').
  unfold a_zero. rewrite FloatAxioms.div_spec, Ha, Hd'. cbn. eauto.
Qed.

Lemma a_zero_add (a b : float) : a_zero a -> a_zero b -> a_zero (a + b).
Proof.
  intros [sa Ha] [sb Hb]. unfold a_zero.
  rewrite FloatAxioms.add_spec, Ha, Hb. cbn.
  destruct sa, sb; eauto.
Qed.

Lemma a_zero_div4 (a : float) : a_zero a -> a_zero (a / 4).
Proof.
  intros [sa Ha]. unfold a_zero. rewrite FloatAxioms.div_spec, Ha.
  change (Prim2SF 4) with (S754_finite false 4503599627370496 (-50)).
  cbn. eauto.
Qed.

Lemma Prim2SF_quarter :
  Prim2SF 0.25 = S754_finite false 4503599627370496 (-54).
Proof. vm_compute. reflexivity. Qed.

Lemma a_zero_quarter (a : float) : a_zero a -> a_zero (0.25 * a).
Proof.
  intros [sa Ha]. unfold a_zero.
  rewrite FloatAxioms.mul_spec, Ha, Prim2SF_quarter. cbn. eauto.
Qed.

Lemma a_zero_mul_finite (a b : float) :
  a_zero a -> is_finite b = true -> a_zero (a * b).
Proof.
  intros [sa Ha] Hb. rewrite <- finite_is_finite in Hb.
  unfold Double.finite in Hb. unfold a_zero.
  rewrite FloatAxioms.mul_spec, Ha.
  destruct (Prim2SF b) as [s|s| |s m e]; try discriminate; cbn; eauto.
Qed.

Lemma literal_zero_a_zero : a_zero 0.
Proof. exists false. exact Prim2SF_zero_literal. Qed.

Lemma x_dip_level (xlength : float) (c : list float) :
  level_along_x c -> nonzero_number xlength ->
  is_zero (Geometry.x_dip xlength c) = true.
Proof.
  intros (E1 & E2 & E3 & E4 & F1 & F2 & F3 & F4) Hd.
  apply a_zero_is_zero. unfold Geometry.x_dip. rewrite E1, E2, E3, E4.
  apply a_zero_div4.
  repeat apply a_zero_add;
    (apply a_zero_div; [now apply fsub_diag_a_zero|exact Hd]).
Qed.

Lemma y_dip_level (ylength : float) (c : list float) :
  level_along_y c -> nonzero_number ylength ->
  is_zero (Geometry.y_dip ylength c) = true.
Proof.
  intros (E1 & E2 & E3 & E4 & F1 & F2 & F3 & F4) Hd.
  apply a_zero_is_zero. unfold Geometry.y_dip. rewrite E1, E2, E3, E4.
  apply a_zero_div4.
  repeat apply a_zero_add;
    (apply a_zero_div; [now apply fsub_diag_a_zero|exact Hd]).
Qed.

(** X9: a cell whose depths do not vary along x has x-dip zero, exactly,
    when its x spacing is a nonzero number; and the same along y.  So a
    cell with horizontal top and bottom faces has dips (0, 0). *)
Theorem cellDips_level_cell (p : EclipseGridParser)
    (nx ny nz : Z) (coord z : list float) (i j k : Z) (t : trace) :
  grid_fits nx ny nz -> arrays_sized p nx ny nz coord z ->
  in_bounds nx ny nz i j k ->
  exists xdip ydip : float,
    fst (cellDips (inspector_of p nx ny nz) i j k t) = inr (xdip, ydip)
    /\ (level_along_x (Layout.corners nx ny z i j k) ->
        nonzero_number (Geometry.cell_xlength nx coord i j) ->
        is_zero xdip = true)
    /\ (level_along_y (Layout.corners nx ny z i j k) ->
        nonzero_number (Geometry.cell_ylength nx coord i j) ->
        is_zero ydip = true).
Proof.
  intros Hfit Hsz Hin.
  rewrite (cellDips_run p nx ny nz coord z i j k t Hfit Hsz Hin).
  do 2 eexists. split; [reflexivity|]. split.
  - apply x_dip_level.
  - apply y_dip_level.
Qed.

Lemma cellDips_level_cell_witness :
  exists xdip ydip : float,
    fst (cellDips
           (inspector_of
              (Samples.grid_parser (1, 1, 1) Samples.unit_square
                 Samples.unit_depths) 1 1 1) 0 0 0 [])
    = inr (xdip, ydip)
    /\ is_zero xdip = true /\ is_zero ydip = true.
Proof.
  destruct (cellDips_level_cell
              (Samples.grid_parser (1, 1, 1) Samples.unit_square
                 Samples.unit_depths) 1 1 1 Samples.unit_square
              Samples.unit_depths 0 0 0 [])
    as (xdip & ydip & Hrun & Hx & Hy).
  - unfold grid_fits, Int.max_int. lia.
  - unfold arrays_sized. repeat split; reflexivity.
  - unfold in_bounds. lia.
  - exists xdip, ydip. split; [exact Hrun|]. split.
    + apply Hx.
      * unfold level_along_x. repeat split; reflexivity.
      * unfold nonzero_number. split; reflexivity.
    + apply Hy.
      * unfold level_along_y. repeat split; reflexivity.
      * unfold nonzero_number. split; reflexivity.
Defined.

Lemma average_height_pinched (c : list float) :
  pinched_out c -> a_zero (Geometry.average_height c).
Proof.
  intros (E1 & E2 & E3 & E4 & F1 & F2 & F3 & F4).
  unfold Geometry.average_height. rewrite E1, E2, E3, E4.
  apply a_zero_quarter.
  repeat apply a_zero_add;
    first [exact literal_zero_a_zero | now apply fsub_diag_a_zero].
Qed.

(** X10: a pinched-out cell, one whose bottom depth is its top depth on each
    of its four vertical edges, has volume zero, exactly, whenever the area
    factor of its pillars is a number. *)
Theorem cellVolume_pinched_out_cell (p : EclipseGridParser)
    (nx ny nz : Z) (coord z : list float) (i j k : Z) (t : trace) :
  grid_fits nx ny nz -> arrays_sized p nx ny nz coord z ->
  in_bounds nx ny nz i j k ->
  pinched_out (Layout.corners nx ny z i j k) ->
  is_finite (Geometry.signed_area
               (Geometry.p0 nx coord i j) (Geometry.p1 nx coord i j)
               (Geometry.p2 nx coord i j) (Geometry.p3 nx coord i j))
  = true ->
  exists volume : float,
    fst (cellVolumeVerticalPillars (inspector_of p nx ny nz) i j k t)
    = inr volume
    /\ is_zero volume = true.
Proof.
  intros Hfit Hsz Hin Hflat Harea.
  rewrite (cellVolumeVerticalPillars_run p nx ny nz coord z i j k t
             Hfit Hsz Hin).
  eexists. split; [reflexivity|].
  apply a_zero_is_zero, a_zero_mul_finite; [|exact Harea].
  now apply average_height_pinched.
Qed.

Lemma cellVolume_pinched_out_cell_witness :
  exists volume : float,
    fst (cellVolumeVerticalPillars
           (inspector_of
              (Samples.grid_parser (1, 1, 1) Samples.unit_square
                 Samples.pinched_depths) 1 1 1) 0 0 0 [])
    = inr volume
    /\ is_zero volume = true.
Proof.
  apply (cellVolume_pinched_out_cell
           (Samples.grid_parser (1, 1, 1) Samples.unit_square
              Samples.pinched_depths) 1 1 1 Samples.unit_square
           Samples.pinched_depths 0 0 0 []).
  - unfold grid_fits, Int.max_int. lia.
  - unfold arrays_sized. repeat split; reflexivity.
  - unfold in_bounds. lia.
  - unfold pinched_out. repeat split; reflexivity.
  - reflexivity.
Defined.

(* ================================================================== *)
(** ** Further properties: the cells share no depth *)

(** A position written in the mixed radix (2*nx, 2*ny) has one owner. *)
Lemma owner_of_digits (nx ny i j k di dj dk : Z) :
  0 <= i < nx -> 0 <= j < ny ->
  0 <= di < 2 -> 0 <= dj < 2 -> 0 <= dk < 2 ->
  owner nx ny ((2 * i + di) + (2 * nx) * ((2 * j + dj) + (2 * ny) * (2 * k + dk)))
  = (i, j, k).
Proof.
  intros Hi Hj Hdi Hdj Hdk. unfold owner.
  set (W := (2 * j + dj) + (2 * ny) * (2 * k + dk)).
  assert (Hmod : ((2 * i + di) + (2 * nx) * W) mod (2 * nx) = 2 * i + di).
  { symmetry. apply (Z.mod_unique _ _ W); [left; lia|lia]. }
  assert (Hdiv : ((2 * i + di) + (2 * nx) * W) / (2 * nx) = W).
  { symmetry. apply (Z.div_unique _ _ _ (2 * i + di)); [left; lia|lia]. }
  rewrite Hmod, Hdiv. unfold W.
  assert (Hmod' : ((2 * j + dj) + (2 * ny) * (2 * k + dk)) mod (2 * ny)
                  = 2 * j + dj).
  { symmetry. apply (Z.mod_unique _ _ (2 * k + dk)); [left; lia|lia]. }
  assert (Hdiv' : ((2 * j + dj) + (2 * ny) * (2 * k + dk)) / (2 * ny)
                  = 2 * k + dk).
  { symmetry. apply (Z.div_unique _ _ _ (2 * j + dj)); [left; lia|lia]. }
  rewrite Hmod', Hdiv'.
  assert (Hi2 : (2 * i + di) / 2 = i)
    by (symmetry; apply (Z.div_unique _ _ _ di); [left; lia|lia]).
  assert (Hj2 : (2 * j + dj) / 2 = j)
    by (symmetry; apply (Z.div_unique _ _ _ dj); [left; lia|lia]).
  assert (Hk2 : (2 * k + dk) / 2 = k)
    by (symmetry; apply (Z.div_unique _ _ _ dk); [left; lia|lia]).
  now rewrite Hi2, Hj2, Hk2.
Qed.

Lemma corner_position_owner (nx ny i j k q : Z) :
  0 <= i < nx -> 0 <= j < ny ->
  In q (corner_positions nx ny i j k) -> owner nx ny q = (i, j, k).
Proof.
  intros Hi Hj Hq.
  unfold corner_positions, Layout.corner_offsets, Layout.base,
    Layout.stride_i, Layout.stride_j, Layout.stride_k in Hq.
  cbn [map In] in Hq.
  destruct Hq as [<-|[<-|[<-|[<-|[<-|[<-|[<-|[<-|[]]]]]]]]].
  - rewrite <- (owner_of_digits nx ny i j k 0 0 0) by lia. f_equal. lia.
  - rewrite <- (owner_of_digits nx ny i j k 1 0 0) by lia. f_equal. lia.
  - rewrite <- (owner_of_digits nx ny i j k 0 1 0) by lia. f_equal. lia.
  - rewrite <- (owner_of_digits nx ny i j k 1 1 0) by lia. f_equal. lia.
  - rewrite <- (owner_of_digits nx ny i j k 0 0 1) by lia. f_equal. lia.
  - rewrite <- (owner_of_digits nx ny i j k 1 0 1) by lia. f_equal. lia.
  - rewrite <- (owner_of_digits nx ny i j k 0 1 1) by lia. f_equal. lia.
  - rewrite <- (owner_of_digits nx ny i j k 1 1 1) by lia. f_equal. lia.
Qed.

(** No ZCORN position is a corner of two cells. *)
Lemma corner_positions_disjoint (nx ny i j k i' j' k' q : Z) :
  0 <= i < nx -> 0 <= j < ny -> 0 <= i' < nx -> 0 <= j' < ny ->
  In q (corner_positions nx ny i j k) ->
  In q (corner_positions nx ny i' j' k') ->
  (i, j, k) = (i', j', k').
Proof.
  intros Hi Hj Hi' Hj' Hq Hq'.
  rewrite <- (corner_position_owner nx ny i j k q Hi Hj Hq).
  exact (corner_position_owner nx ny i' j' k' q Hi' Hj' Hq').
Qed.

(** X11: the cells share no depth.  If a ZCORN array is changed only at the
    eight corner positions of one in-bounds cell, cellZvals returns for every
    other in-bounds cell the depths it returned before. *)
Theorem cellZvals_other_cells_unchanged (p p' : EclipseGridParser)
    (nx ny nz : Z) (z z' : list float) (i j k i' j' k' : Z) (t : trace) :
  8 * nx * ny * nz <= Int.max_int ->
  floating_field_map p "ZCORN" = Some z ->
  floating_field_map p' "ZCORN" = Some z' ->
  Z.of_nat (List.length z) = 8 * nx * ny * nz ->
  Z.of_nat (List.length z') = 8 * nx * ny * nz ->
  in_bounds nx ny nz i j k -> in_bounds nx ny nz i' j' k' ->
  (i', j', k') <> (i, j, k) ->
  (forall q, 0 <= q < 8 * nx * ny * nz ->
             ~ In q (corner_positions nx ny i j k) -> elt z' q = elt z q) ->
  cellZvals (inspector_of p' nx ny nz) i' j' k' t
  = cellZvals (inspector_of p nx ny nz) i' j' k' t.
Proof.
  intros Hfit Hz Hz' Hlen Hlen' (Hi & Hj & Hk) (Hi' & Hj' & Hk') Hne Hsame.
  rewrite (cellZvals_run p nx ny nz z i' j' k' t Hz Hlen Hfit Hi' Hj' Hk').
  rewrite (cellZvals_run p' nx ny nz z' i' j' k' t Hz' Hlen' Hfit Hi' Hj' Hk').
  f_equal. f_equal. unfold Layout.corners. apply map_ext_in.
  intros off Hoff. apply Hsame.
  { pose proof (corner_offsets_in_range nx ny nz i' j' k' Hi' Hj' Hk') as Hr.
    rewrite Forall_forall in Hr. exact (Hr off Hoff). }
  intros Hq. apply Hne.
  apply (corner_positions_disjoint nx ny i' j' k' i j k
           (Layout.base nx ny i' j' k' + off)); try assumption.
  unfold corner_positions.
  exact (in_map (fun o => Layout.base nx ny i' j' k' + o) _ off Hoff).
Qed.

Lemma cellZvals_other_cells_unchanged_witness :
  cellZvals
    (inspector_of
       (Samples.grid_parser (1, 2, 1) []
          ([9; 9; 9; 9] ++ Samples.ramp 4 4 ++ [9; 9; 9; 9]
           ++ Samples.ramp 4 12)%list%float) 1 2 1) 0 1 0 []
  = cellZvals
      (inspector_of
         (Samples.grid_parser (1, 2, 1) [] (Samples.ramp 16 0)) 1 2 1)
      0 1 0 [].
Proof.
  apply (cellZvals_other_cells_unchanged
           (Samples.grid_parser (1, 2, 1) [] (Samples.ramp 16 0))
           (Samples.grid_parser (1, 2, 1) []
              ([9; 9; 9; 9] ++ Samples.ramp 4 4 ++ [9; 9; 9; 9]
               ++ Samples.ramp 4 12)%list%float)
           1 2 1 (Samples.ramp 16 0)
           ([9; 9; 9; 9] ++ Samples.ramp 4 4 ++ [9; 9; 9; 9]
            ++ Samples.ramp 4 12)%list%float
           0 0 0 0 1 0 []).
  - unfold Int.max_int. lia.
  - reflexivity.
  - reflexivity.
  - reflexivity.
  - reflexivity.
  - unfold in_bounds. lia.
  - unfold in_bounds. lia.
  - discriminate.
  - intros q Hr Hq. unfold elt.
    assert (Hcases : q = 4 \/ q = 5 \/ q = 6 \/ q = 7 \/ q = 12
                     \/ q = 13 \/ q = 14 \/ q = 15).
    { cbv in Hq. lia. }
    destruct Hcases as [->|[->|[->|[->|[->|[->|[->| ->]]]]]]]; reflexivity.
Defined.

(** Every position of a correctly sized ZCORN is a corner of the cell that
    owns it, and that cell is in bounds. *)
Lemma owner_in_bounds (nx ny nz q : Z) :
  0 < nx -> 0 < ny -> 0 < nz -> 0 <= q < 8 * nx * ny * nz ->
  exists i j k,
    owner nx ny q = (i, j, k) /\ in_bounds nx ny nz i j k
    /\ In q (corner_positions nx ny i j k).
Proof.
  intros Hx Hy Hz Hq. unfold owner.
  pose proof (Z.div_mod q (2 * nx) ltac:(lia)) as E1.
  pose proof (Z.mod_pos_bound q (2 * nx) ltac:(lia)) as B1.
  assert (HW0 : 0 <= q / (2 * nx)) by (apply Z.div_pos; lia).
  assert (HW1 : q / (2 * nx) < 4 * ny * nz)
    by (apply Z.div_lt_upper_bound; lia).
  set (W := q / (2 * nx)) in *. set (A := q mod (2 * nx)) in *.
  pose proof (Z.div_mod W (2 * ny) ltac:(lia)) as E2.
  pose proof (Z.mod_pos_bound W (2 * ny) ltac:(lia)) as B2.
  assert (HC0 : 0 <= W / (2 * ny)) by (apply Z.div_pos; lia).
  assert (HC1 : W / (2 * ny) < 2 * nz)
    by (apply Z.div_lt_upper_bound; lia).
  set (C := W / (2 * ny)) in *. set (B := W mod (2 * ny)) in *.
  pose proof (Z.div_mod A 2 ltac:(lia)) as E3.
  pose proof (Z.mod_pos_bound A 2 ltac:(lia)) as B3.
  pose proof (Z.div_mod B 2 ltac:(lia)) as E4.
  pose proof (Z.mod_pos_bound B 2 ltac:(lia)) as B4.
  pose proof (Z.div_mod C 2 ltac:(lia)) as E5.
  pose proof (Z.mod_pos_bound C 2 ltac:(lia)) as B5.
  assert (Hi : 0 <= A / 2 < nx)
    by (split; [apply Z.div_pos; lia|apply Z.div_lt_upper_bound; lia]).
  assert (Hj : 0 <= B / 2 < ny)
    by (split; [apply Z.div_pos; lia|apply Z.div_lt_upper_bound; lia]).
  assert (Hk : 0 <= C / 2 < nz)
    by (split; [apply Z.div_pos; lia|apply Z.div_lt_upper_bound; lia]).
  set (i := A / 2) in *. set (di := A mod 2) in *.
  set (j := B / 2) in *. set (dj := B mod 2) in *.
  set (k := C / 2) in *. set (dk := C mod 2) in *.
  clearbody i di j dj k dk. clearbody C B. clearbody W A.
  exists i, j, k. split; [reflexivity|]. split; [unfold in_bounds; lia|].
  assert (Eq : q = (2 * i + di) + (2 * nx) * ((2 * j + dj) + (2 * ny) * (2 * k + dk)))
    by (rewrite E1, E2, E3, E4, E5; ring).
  clear E1 E2 E3 E4 E5.
  unfold corner_positions, Layout.corner_offsets, Layout.base,
    Layout.stride_i, Layout.stride_j, Layout.stride_k.
  cbn [map In]. rewrite Eq.
  assert (Hdi : di = 0 \/ di = 1) by lia.
  assert (Hdj : dj = 0 \/ dj = 1) by lia.
  assert (Hdk : dk = 0 \/ dk = 1) by lia.
  destruct Hdi as [-> | ->], Hdj as [-> | ->], Hdk as [-> | ->].
  - left. ring.
  - do 4 right. left. ring.
  - do 2 right. left. ring.
  - do 6 right. left. ring.
  - right. left. ring.
  - do 5 right. left. ring.
  - do 3 right. left. ring.
  - do 7 right. left. ring.
Qed.

(** X12: ZCORN is partitioned among the cells.  Every position of a
    correctly sized ZCORN array is read by cellZvals for exactly one
    in-bounds cell: that cell's query returns the depths at its eight corner
    positions, the position is one of them, and it is a corner position of
    no other in-bounds cell. *)
Theorem zcorn_position_has_one_cell (p : EclipseGridParser) (nx ny nz : Z)
    (z : list float) (q : Z) (t : trace) :
  0 < nx -> 0 < ny -> 0 < nz ->
  8 * nx * ny * nz <= Int.max_int ->
  floating_field_map p "ZCORN" = Some z ->
  Z.of_nat (List.length z) = 8 * nx * ny * nz ->
  0 <= q < 8 * nx * ny * nz ->
  exists i j k,
    in_bounds nx ny nz i j k
    /\ In q (corner_positions nx ny i j k)
    /\ fst (cellZvals (inspector_of p nx ny nz) i j k t)
       = inr (map (elt z) (corner_positions nx ny i j k))
    /\ forall i' j' k',
         in_bounds nx ny nz i' j' k' ->
         In q (corner_positions nx ny i' j' k') ->
         (i', j', k') = (i, j, k).
Proof.
  intros Hx Hy Hzp Hfit Hz Hlen Hq.
  destruct (owner_in_bounds nx ny nz q Hx Hy Hzp Hq)
    as (i & j & k & _ & Hin & Hpos).
  exists i, j, k. split; [exact Hin|]. split; [exact Hpos|].
  destruct Hin as (Hi & Hj & Hk). split.
  - rewrite (cellZvals_run p nx ny nz z i j k t Hz Hlen Hfit Hi Hj Hk).
    cbn [fst]. unfold Layout.corners, corner_positions.
    now rewrite map_map.
  - intros i' j' k' (Hi' & Hj' & Hk') Hpos'.
    exact (corner_positions_disjoint nx ny i' j' k' i j k q
             Hi' Hj' Hi Hj Hpos' Hpos).
Qed.

Lemma zcorn_position_has_one_cell_witness :
  exists i j k,
    in_bounds 1 2 1 i j k
    /\ In 13 (corner_positions 1 2 i j k)
    /\ fst (cellZvals
              (inspector_of
                 (Samples.grid_parser (1, 2, 1) [] (Samples.ramp 16 0))
                 1 2 1) i j k [])
       = inr (map (elt (Samples.ramp 16 0)) (corner_positions 1 2 i j k))
    /\ forall i' j' k',
         in_bounds 1 2 1 i' j' k' ->
         In 13 (corner_positions 1 2 i' j' k') ->
         (i', j', k') = (i, j, k).
Proof.
  apply (zcorn_position_has_one_cell
           (Samples.grid_parser (1, 2, 1) [] (Samples.ramp 16 0))
           1 2 1 (Samples.ramp 16 0) 13 []).
  - lia.
  - lia.
  - lia.
  - unfold Int.max_int. lia.
  - reflexivity.
  - reflexivity.
  - lia.
Defined.

(** X13: cellZvals takes any coordinates whose offsets fall inside ZCORN.
    The first coordinate i + 2*nx is out of bounds, yet with it cellZvals
    returns, without an error, the depths of the in-bounds cell one row up,
    (i, j+1, k). *)
Theorem cellZvals_out_of_bounds_reads_next_row (p : EclipseGridParser)
    (nx ny nz : Z) (z : list float) (i j k : Z) (t : trace) :
  8 * nx * ny * nz <= Int.max_int ->
  floating_field_map p "ZCORN" = Some z ->
  Z.of_nat (List.length z) = 8 * nx * ny * nz ->
  0 <= j -> in_bounds nx ny nz i (j + 1) k ->
  ~ in_bounds nx ny nz (i + 2 * nx) j k
  /\ cellZvals (inspector_of p nx ny nz) (i + 2 * nx) j k t
     = (inr (Layout.corners nx ny z i (j + 1) k), (t ++ ["ZCORN"])%list).
Proof.
  intros Hfit Hz Hlen Hj0 (Hi & Hj & Hk).
  split; [unfold in_bounds; lia|].
  pose proof (cell_products nx ny nz i (j + 1) k Hi Hj Hk)
    as (P1 & P2 & P3 & P4).
  assert (Hjn : 0 <= j * nx) by (apply Z.mul_nonneg_nonneg; lia).
  open_query.
  rewrite Hz.
  rewrite num_cells_exact, of_size_id by lia.
  rewrite Hlen, Z.eqb_refl.
  cbv beta iota zeta delta
    [negb Layout.corners Layout.corner_offsets Layout.base Layout.stride_i
     Layout.stride_j Layout.stride_k elt map].
  unwrap.
  replace (2 * ((i + 2 * nx) * 1 + j * (2 * nx) + k * (4 * nx * ny)))
    with (2 * (i * 1 + (j + 1) * (2 * nx) + k * (4 * nx * ny))) by lia.
  repeat (rewrite (vec_at_in_range z _ 0%float) by lia).
  unfold ret. now rewrite !Z.add_assoc, Z.add_0_r.
Qed.

Lemma cellZvals_out_of_bounds_reads_next_row_witness :
  ~ in_bounds 1 2 1 (0 + 2 * 1) 0 0
  /\ cellZvals
       (inspector_of
          (Samples.grid_parser (1, 2, 1) [] (Samples.ramp 16 0)) 1 2 1)
       (0 + 2 * 1) 0 0 []
     = (inr (Layout.corners 1 2 (Samples.ramp 16 0) 0 (0 + 1) 0),
        ["ZCORN"]).
Proof.
  apply (cellZvals_out_of_bounds_reads_next_row
           (Samples.grid_parser (1, 2, 1) [] (Samples.ramp 16 0))
           1 2 1 (Samples.ramp 16 0) 0 0 0 []).
  - unfold Int.max_int. lia.
  - reflexivity.
  - reflexivity.
  - lia.
  - unfold in_bounds. lia.
Defined.

(* ================================================================== *)
(** ** Further properties: the arrays are fetched anew on every call *)

(** X14: no array is kept between calls.  Each successful cellVolume call
    fetches COORD and then ZCORN from the parser; each successful cellDips
    call fetches COORD, then ZCORN, and then ZCORN once more, through
    cellZvals, which validates its length a second time. *)
Theorem queries_fetch_arrays_on_each_call (p : EclipseGridParser)
    (nx ny nz : Z) (coord z : list float) (i j k : Z) (t : trace) :
  grid_fits nx ny nz -> arrays_sized p nx ny nz coord z ->
  in_bounds nx ny nz i j k ->
  snd (cellVolumeVerticalPillars (inspector_of p nx ny nz) i j k t)
  = (t ++ ["COORD"; "ZCORN"])%list
  /\ snd (cellDips (inspector_of p nx ny nz) i j k t)
     = (t ++ ["COORD"; "ZCORN"; "ZCORN"])%list
  /\ snd (cellDips (inspector_of p nx ny nz) i j k
            (snd (cellDips (inspector_of p nx ny nz) i j k t)))
     = (t ++ ["COORD"; "ZCORN"; "ZCORN"; "COORD"; "ZCORN"; "ZCORN"])%list.
Proof.
  intros Hfit Hsz Hin.
  rewrite (cellVolumeVerticalPillars_run p nx ny nz coord z i j k t
             Hfit Hsz Hin).
  rewrite (cellDips_run p nx ny nz coord z i j k t Hfit Hsz Hin).
  cbn [snd].
  rewrite (cellDips_run p nx ny nz coord z i j k _ Hfit Hsz Hin).
  cbn [snd]. rewrite <- !app_assoc. now repeat split.
Qed.

Lemma queries_fetch_arrays_on_each_call_witness :
  snd (cellVolumeVerticalPillars
         (inspector_of
            (Samples.grid_parser (1, 1, 1) Samples.unit_square
               Samples.tilted_depths) 1 1 1) 0 0 0 [])
  = ["COORD"; "ZCORN"]
  /\ snd (cellDips
            (inspector_of
               (Samples.grid_parser (1, 1, 1) Samples.unit_square
                  Samples.tilted_depths) 1 1 1) 0 0 0 [])
     = ["COORD"; "ZCORN"; "ZCORN"]
  /\ snd (cellDips
            (inspector_of
               (Samples.grid_parser (1, 1, 1) Samples.unit_square
                  Samples.tilted_depths) 1 1 1) 0 0 0
            (snd (cellDips
                    (inspector_of
                       (Samples.grid_parser (1, 1, 1) Samples.unit_square
                          Samples.tilted_depths) 1 1 1) 0 0 0 [])))
     = ["COORD"; "ZCORN"; "ZCORN"; "COORD"; "ZCORN"; "ZCORN"].
Proof.
  apply (queries_fetch_arrays_on_each_call
           (Samples.grid_parser (1, 1, 1) Samples.unit_square
              Samples.tilted_depths) 1 1 1 Samples.unit_square
           Samples.tilted_depths 0 0 0 []).
  - unfold grid_fits, Int.max_int. lia.
  - unfold arrays_sized. repeat split; reflexivity.
  - unfold in_bounds. lia.
Defined.

(* ================================================================== *)
(** ** Further properties: the index conversion on square horizons *)

Lemma in_Zrange (from : Z) (n : nat) (x : Z) :
  from <= x < from + Z.of_nat n -> In x (Zrange from n).
Proof.
  intros H. unfold Zrange.
  replace x with (from + Z.of_nat (Z.to_nat (x - from))) by lia.
  apply (in_map (fun d => from + Z.of_nat d)), in_seq. lia.
Qed.

(** [converts_back] holds on every index of every grid n x n x nz with
    1 <= n <= 8 and 1 <= nz <= 4: the conversion is run on each of them. *)
Lemma square_horizons_checked (p : EclipseGridParser) :
  forallb (fun n =>
    forallb (fun nz =>
      forallb (converts_back (inspector_of p n n nz) n n nz)
              (Zrange 0 (Z.to_nat (n * n * nz))))
      (Zrange 1 4))
    (Zrange 1 8) = true.
Proof. vm_compute. reflexivity. Qed.

Lemma forallb_Zrange (f : Z -> bool) (from : Z) (n : nat) (x : Z) :
  forallb f (Zrange from n) = true -> from <= x < from + Z.of_nat n ->
  f x = true.
Proof.
  intros H Hx. rewrite forallb_forall in H. apply H. now apply in_Zrange.
Qed.

Lemma converts_back_spec (g : Inspector) (nx ny nz idx : Z) :
  converts_back g nx ny nz idx = true ->
  exists i j k,
    run (cellIdxToLogicalCoords g idx) = (inr (mk_int3 i j k), [])
    /\ in_bounds nx ny nz i j k
    /\ idx = i + nx * j + nx * ny * k.
Proof.
  unfold converts_back.
  destruct (run (cellIdxToLogicalCoords g idx))
    as [[e|[i j k]] [|f tr]]; try discriminate.
  intros H. exists i, j, k. split; [reflexivity|].
  repeat (apply andb_true_iff in H; destruct H as [H ?]).
  unfold in_bounds. lia.
Qed.

(** X15: where nx = ny the two constants of the zero-remainder branch agree.
    On every grid n x n x nz with n <= 8 and nz <= 4, cellIdxToLogicalCoords
    sends each linear index below n*n*nz to an in-bounds triple (i, j, k)
    with index = i + n*j + n*n*k, so it is one-to-one there, i running
    fastest, then j, then k. *)
Theorem cellIdxToLogicalCoords_square_horizon (p : EclipseGridParser)
    (n nz idx : Z) :
  1 <= n <= 8 -> 1 <= nz <= 4 -> 0 <= idx < n * n * nz ->
  exists i j k,
    run (cellIdxToLogicalCoords (inspector_of p n n nz) idx)
    = (inr (mk_int3 i j k), [])
    /\ in_bounds n n nz i j k
    /\ idx = i + n * j + n * n * k.
Proof.
  intros Hn Hnz Hidx.
  apply converts_back_spec.
  apply (forallb_Zrange
           (converts_back (inspector_of p n n nz) n n nz)
           0 (Z.to_nat (n * n * nz)) idx); [|lia].
  apply (forallb_Zrange
           (fun nz =>
              forallb (converts_back (inspector_of p n n nz) n n nz)
                      (Zrange 0 (Z.to_nat (n * n * nz))))
           1 4 nz); [|lia].
  apply (forallb_Zrange
           (fun n =>
              forallb (fun nz =>
                forallb (converts_back (inspector_of p n n nz) n n nz)
                        (Zrange 0 (Z.to_nat (n * n * nz))))
                (Zrange 1 4))
           1 8 n); [|lia].
  exact (square_horizons_checked p).
Qed.

Lemma cellIdxToLogicalCoords_square_horizon_witness :
  exists i j k,
    run (cellIdxToLogicalCoords
           (inspector_of Samples.specgrid_only 3 3 2) 11)
    = (inr (mk_int3 i j k), [])
    /\ in_bounds 3 3 2 i j k
    /\ 11 = i + 3 * j + 3 * 3 * k.
Proof.
  apply (cellIdxToLogicalCoords_square_horizon Samples.specgrid_only 3 2 11).
  - lia.
  - lia.
  - lia.
Defined.
